(** * ShopEase: the products/sales data-access handlers of [app.js]
      over the relational schema of [SHOPEASE.sql].

    Every route handler of [app.js] issues exactly one SQL statement through
    [pool.query] and maps its outcome to an HTTP response.  The store is the
    set of tables declared in [SHOPEASE.sql] together with the two SERIAL
    sequences the handlers draw from; a statement either commits or is rolled
    back as a whole (autocommit), sequences excepted. *)

From Stdlib Require Import ZArith String Ascii List Permutation Lia.
From stdpp Require Import gmap strings list fin_maps.

Local Open Scope Z_scope.

(** ** Values sent by the client *)

(** A JSON number, as the decimal text node-postgres puts on the wire:
    [mant / 10 ^ scale]. *)
Record JsNumber := { mant : Z; scale : nat }.

Definition js_int (z : Z) : JsNumber := {| mant := z; scale := 0 |}.

(** [req.body] of the product routes, with the field types the Product schema
    of [app.js] documents (string, number).  A field is [None] when the key is
    absent or JSON [null]; node-postgres sends both as SQL NULL.  The handlers
    read [product_name], [price] and [category] only. *)
Record ProductBody := {
  b_product_name : option string;
  b_price : option JsNumber;
  b_category : option string;
  b_description : option string;
  b_stock_quantity : option JsNumber
}.

(** [req.body] of the sales routes; the Sale schema of [app.js] documents the
    three fields as integers, JSON has numbers only. *)
Record SaleBody := {
  b_customer_id : option JsNumber;
  b_product_id : option JsNumber;
  b_quantity : option JsNumber
}.

(** ** SHOPEASE.sql: rows, tables, sequences *)

(** Every column but the primary key is nullable; the key is the index of the
    row in its table.  NUMERIC(10, 2) values are kept in hundredths. *)
Record CustomerRow := {
  first_name : option string;
  last_name : option string;
  email : option string;
  phone_number : option string;
  address : option string
}.

Record ProductRow := {
  product_name : option string;
  price : option Z;
  category : option string;
  description : option string;
  stock_quantity : option Z
}.

Record OrderRow := {
  order_customer_id : option Z;
  order_product_id : option Z;
  order_quantity : option Z;
  total_amount : option Z;
  order_status : option string;
  order_timestamp : option Z
}.

Record OrderItemRow := {
  item_order_id : option Z;
  item_product_id : option Z;
  item_quantity : option Z;
  unit_price : option Z
}.

Record PaymentRow := {
  payment_customer_id : option Z;
  amount : option Z;
  payment_method : option string;
  payment_timestamp : option Z
}.

Record SaleRow := {
  customer_id : option Z;
  product_id : option Z;
  quantity : option Z;
  timestamp : option Z
}.

(** The database.  A sequence field holds the value its next [nextval]
    returns. *)
Record Store := {
  customers : gmap Z CustomerRow;
  products : gmap Z ProductRow;
  orders : gmap Z OrderRow;
  order_items : gmap Z OrderItemRow;
  payments : gmap Z PaymentRow;
  sales : gmap Z SaleRow;
  products_product_id_seq : Z;
  sales_sale_id_seq : Z
}.

(** The database right after [SHOPEASE.sql] has run. *)
Definition empty_store : Store := {|
  customers := ∅; products := ∅; orders := ∅; order_items := ∅;
  payments := ∅; sales := ∅;
  products_product_id_seq := 1; sales_sale_id_seq := 1
|}.

Definition set_products (f : gmap Z ProductRow → gmap Z ProductRow) (s : Store) : Store :=
  {| customers := customers s; products := f (products s); orders := orders s;
     order_items := order_items s; payments := payments s; sales := sales s;
     products_product_id_seq := products_product_id_seq s;
     sales_sale_id_seq := sales_sale_id_seq s |}.

Definition set_sales (f : gmap Z SaleRow → gmap Z SaleRow) (s : Store) : Store :=
  {| customers := customers s; products := products s; orders := orders s;
     order_items := order_items s; payments := payments s; sales := f (sales s);
     products_product_id_seq := products_product_id_seq s;
     sales_sale_id_seq := sales_sale_id_seq s |}.

Definition set_products_product_id_seq (z : Z) (s : Store) : Store :=
  {| customers := customers s; products := products s; orders := orders s;
     order_items := order_items s; payments := payments s; sales := sales s;
     products_product_id_seq := z;
     sales_sale_id_seq := sales_sale_id_seq s |}.

Definition set_sales_sale_id_seq (z : Z) (s : Store) : Store :=
  {| customers := customers s; products := products s; orders := orders s;
     order_items := order_items s; payments := payments s; sales := sales s;
     products_product_id_seq := products_product_id_seq s;
     sales_sale_id_seq := z |}.

(** ** Storage errors and parameter binding *)

(** The SQLSTATE conditions the statements of [app.js] can raise. *)
Inductive SqlState :=
  | invalid_text_representation
  | numeric_value_out_of_range
  | string_data_right_truncation
  | character_not_in_repertoire
  | sequence_generator_limit_exceeded
  | unique_violation
  | foreign_key_violation.

Inductive Result (A : Type) :=
  | Ok (a : A)
  | Err (e : SqlState).
Arguments Ok {A} a.
Arguments Err {A} e.

(** The first error aborts the statement. *)
#[global] Instance Result_bind : MBind Result := λ A B k r,
  match r with
  | Ok a => k a
  | Err e => Err e
  end.

Definition int4_min : Z := -2147483648.
Definition int4_max : Z := 2147483647.

Definition in_int4 (z : Z) : bool := (int4_min <=? z) && (z <=? int4_max).

Definition pow10 (n : nat) : Z := 10 ^ Z.of_nat n.

(** An integer parameter taken from the path: out of range is refused. *)
Definition int4 (z : Z) : Result Z :=
  if in_int4 z then Ok z else Err numeric_value_out_of_range.

Definition is_integer (n : JsNumber) : bool := mant n mod pow10 (scale n) =? 0.

(** A JSON number bound to an INTEGER column: its text must be that of an
    integer, within the 32-bit range. *)
Definition int4_of_number (n : JsNumber) : Result Z :=
  if is_integer n
  then int4 (mant n / pow10 (scale n))
  else Err invalid_text_representation.

(** Rounding of [num / den] to the nearest integer, ties away from zero
    ([den] positive). *)
Definition round_half_away (num den : Z) : Z :=
  Z.sgn num * ((2 * Z.abs num + den) / (2 * den)).

(** A JSON number bound to a NUMERIC(10, 2) column: rounded to two decimals,
    at most eight digits before the point.  The result is in hundredths. *)
Definition numeric_10_2 (n : JsNumber) : Result Z :=
  let cents := round_half_away (mant n * 100) (pow10 (scale n)) in
  if Z.abs cents <? 10 ^ 10 then Ok cents else Err numeric_value_out_of_range.

Definition is_space (c : ascii) : bool := Ascii.eqb c " "%char.
Definition is_nul (c : ascii) : bool := Ascii.eqb c zero.

(** A string is its UTF-8 text.  A byte [10xxxxxx] continues the character
    begun by an earlier byte; every other byte begins a character. *)
Definition is_continuation (c : ascii) : bool :=
  match c with
  | Ascii _ _ _ _ _ _ false true => true
  | _ => false
  end.

(** The number of characters of a text. *)
Fixpoint char_length (cs : list ascii) : nat :=
  match cs with
  | [] => O
  | c :: cs' =>
    if is_continuation c then char_length cs' else S (char_length cs')
  end.

(** The first [n] characters of a text. *)
Fixpoint take_chars (n : nat) (cs : list ascii) : list ascii :=
  match cs with
  | [] => []
  | c :: cs' =>
    if is_continuation c then c :: take_chars n cs'
    else match n with
         | O => []
         | S n' => c :: take_chars n' cs'
         end
  end.

(** The text after its first [n] characters. *)
Fixpoint drop_chars (n : nat) (cs : list ascii) : list ascii :=
  match cs with
  | [] => []
  | c :: cs' =>
    if is_continuation c then drop_chars n cs'
    else match n with
         | O => c :: cs'
         | S n' => drop_chars n' cs'
         end
  end.

(** A JSON string bound to a VARCHAR(n) column: text holds no NUL character;
    a value of more than [n] characters is refused unless the excess is all
    spaces, then it is cut to [n] characters. *)
Definition varchar (n : nat) (v : string) : Result string :=
  let cs := list_ascii_of_string v in
  if existsb is_nul cs then Err character_not_in_repertoire
  else if (char_length cs <=? n)%nat then Ok v
  else if forallb is_space (drop_chars n cs)
  then Ok (string_of_list_ascii (take_chars n cs))
  else Err string_data_right_truncation.

(** [undefined] and [null] are bound as NULL, whatever the column type. *)
Definition nullable {A B} (conv : A → Result B) (v : option A) : Result (option B) :=
  match v with
  | None => Ok None
  | Some a => b ← conv a; Ok (Some b)
  end.

(** ** The statements issued by [app.js]

    A statement returns its outcome and the store it leaves.  Its parameters
    are bound to the types of their columns before it runs.  On an error the
    tables are as before the statement; a value drawn from a sequence is not
    given back. *)

Definition ProductRows := list (Z * ProductRow).
Definition SaleRows := list (Z * SaleRow).

(** [nextval] of the sequence behind [products.product_id]. *)
Definition nextval_products (s : Store) : Result Z * Store :=
  let v := products_product_id_seq s in
  if v <=? int4_max
  then (Ok v, set_products_product_id_seq (v + 1) s)
  else (Err sequence_generator_limit_exceeded, s).

(** [nextval] of the sequence behind [sales.sale_id]. *)
Definition nextval_sales (s : Store) : Result Z * Store :=
  let v := sales_sale_id_seq s in
  if v <=? int4_max
  then (Ok v, set_sales_sale_id_seq (v + 1) s)
  else (Err sequence_generator_limit_exceeded, s).

(** [REFERENCES t(key)]: a NULL reference passes, any other must name a row. *)
Definition fk_holds {R} (t : gmap Z R) (ref : option Z) : bool :=
  match ref with
  | None => true
  | Some k => bool_decide (is_Some (t !! k))
  end.

(** Some row of [t] refers to key [k] through column [col]. *)
Definition referenced {R} (col : R → option Z) (k : Z) (t : gmap Z R) : bool :=
  bool_decide (map_Exists (λ _ r, col r = Some k) t).

Definition row_of {R} (t : gmap Z R) (id : Z) : list (Z * R) :=
  match t !! id with
  | Some r => [(id, r)]
  | None => []
  end.

(** The values bound to [product_name], [price] and [category]. *)
Definition product_values (name : option string) (pr : option JsNumber)
    (cat : option string) : Result (option string * option Z * option string) :=
  n ← nullable (varchar 100) name;
  p ← nullable numeric_10_2 pr;
  c ← nullable (varchar 50) cat;
  Ok (n, p, c).

(** The values bound to [customer_id], [product_id] and [quantity]. *)
Definition sale_values (cust prod qty : option JsNumber)
    : Result (option Z * option Z * option Z) :=
  c ← nullable int4_of_number cust;
  p ← nullable int4_of_number prod;
  q ← nullable int4_of_number qty;
  Ok (c, p, q).

(** [SELECT * FROM products]; the rows come in no promised order. *)
Definition select_products (s : Store) : Result ProductRows * Store :=
  (Ok (map_to_list (products s)), s).

(** [SELECT * FROM products WHERE product_id = $1] *)
Definition select_product (id : Z) (s : Store) : Result ProductRows * Store :=
  (k ← int4 id; Ok (row_of (products s) k), s).

(** [INSERT INTO products (product_name, price, category)
     VALUES ($1, $2, $3) RETURNING *] *)
Definition insert_product (name : option string) (pr : option JsNumber)
    (cat : option string) (s : Store) : Result ProductRows * Store :=
  match product_values name pr cat with
  | Err e => (Err e, s)
  | Ok (n, p, c) =>
    match nextval_products s with
    | (Err e, s1) => (Err e, s1)
    | (Ok id, s1) =>
      let row := {| product_name := n; price := p; category := c;
                    description := None; stock_quantity := None |} in
      match products s1 !! id with
      | Some _ => (Err unique_violation, s1)
      | None => (Ok [(id, row)], set_products (insert id row) s1)
      end
    end
  end.

(** [UPDATE products SET product_name = $1, price = $2, category = $3
     WHERE product_id = $4 RETURNING *] *)
Definition update_product (name : option string) (pr : option JsNumber)
    (cat : option string) (id : Z) (s : Store) : Result ProductRows * Store :=
  match v ← product_values name pr cat; k ← int4 id; Ok (v, k) with
  | Err e => (Err e, s)
  | Ok (n, p, c, k) =>
    match products s !! k with
    | None => (Ok [], s)
    | Some old =>
      let row := {| product_name := n; price := p; category := c;
                    description := description old;
                    stock_quantity := stock_quantity old |} in
      (Ok [(k, row)], set_products (insert k row) s)
    end
  end.

(** [orders], [order_items] and [sales] declare
    [product_id INTEGER REFERENCES products(product_id)]. *)
Definition product_referenced (k : Z) (s : Store) : bool :=
  referenced order_product_id k (orders s)
  || referenced item_product_id k (order_items s)
  || referenced product_id k (sales s).

(** [DELETE FROM products WHERE product_id = $1]; the outcome is the number
    of rows deleted.  The references to [products] carry the default action,
    which refuses the deletion of a row still referred to. *)
Definition delete_product (id : Z) (s : Store) : Result nat * Store :=
  match int4 id with
  | Err e => (Err e, s)
  | Ok k =>
    match products s !! k with
    | None => (Ok 0%nat, s)
    | Some _ =>
      if product_referenced k s
      then (Err foreign_key_violation, s)
      else (Ok 1%nat, set_products (delete k) s)
    end
  end.

(** [SELECT * FROM sales]; the rows come in no promised order. *)
Definition select_sales (s : Store) : Result SaleRows * Store :=
  (Ok (map_to_list (sales s)), s).

(** [SELECT * FROM sales WHERE sale_id = $1] *)
Definition select_sale (id : Z) (s : Store) : Result SaleRows * Store :=
  (k ← int4 id; Ok (row_of (sales s) k), s).

(** [INSERT INTO sales (customer_id, product_id, quantity)
     VALUES ($1, $2, $3) RETURNING *] *)
Definition insert_sale (cust prod qty : option JsNumber) (s : Store)
    : Result SaleRows * Store :=
  match sale_values cust prod qty with
  | Err e => (Err e, s)
  | Ok (c, p, q) =>
    match nextval_sales s with
    | (Err e, s1) => (Err e, s1)
    | (Ok id, s1) =>
      let row := {| customer_id := c; product_id := p; quantity := q;
                    timestamp := None |} in
      match sales s1 !! id with
      | Some _ => (Err unique_violation, s1)
      | None =>
        if fk_holds (customers s1) c && fk_holds (products s1) p
        then (Ok [(id, row)], set_sales (insert id row) s1)
        else (Err foreign_key_violation, s1)
      end
    end
  end.

(** A foreign key of an updated row is checked again only when its value
    changes. *)
Definition fk_holds_upd {R} (t : gmap Z R) (old new : option Z) : bool :=
  bool_decide (old = new) || fk_holds t new.

(** [UPDATE sales SET customer_id = $1, product_id = $2, quantity = $3
     WHERE sale_id = $4 RETURNING *] *)
Definition update_sale (cust prod qty : option JsNumber) (id : Z) (s : Store)
    : Result SaleRows * Store :=
  match v ← sale_values cust prod qty; k ← int4 id; Ok (v, k) with
  | Err e => (Err e, s)
  | Ok (c, p, q, k) =>
    match sales s !! k with
    | None => (Ok [], s)
    | Some old =>
      let row := {| customer_id := c; product_id := p; quantity := q;
                    timestamp := timestamp old |} in
      if fk_holds_upd (customers s) (customer_id old) c
         && fk_holds_upd (products s) (product_id old) p
      then (Ok [(k, row)], set_sales (insert k row) s)
      else (Err foreign_key_violation, s)
    end
  end.

(** [DELETE FROM sales WHERE sale_id = $1] *)
Definition delete_sale (id : Z) (s : Store) : Result nat * Store :=
  match int4 id with
  | Err e => (Err e, s)
  | Ok k =>
    match sales s !! k with
    | None => (Ok 0%nat, s)
    | Some _ => (Ok 1%nat, set_sales (delete k) s)
    end
  end.

(** ** The route handlers of [app.js] *)

Inductive Body :=
  | products_json (rows : ProductRows)
  | product_json (row : Z * ProductRow)
  | sales_json (rows : SaleRows)
  | sale_json (row : Z * SaleRow)
  | error_json (error : string)
  | no_body.

Record Response := { status : Z; body : Body }.

Definition json (st : Z) (b : Body) : Response := {| status := st; body := b |}.
Definition sendStatus (st : Z) : Response := {| status := st; body := no_body |}.

(** The [catch] branch shared by every handler. *)
Definition internal_server_error : Response :=
  json 500 (error_json "Internal server error").

(** [rows[0]] of a products result; [undefined] serialises to no body. *)
Definition first_product (rows : ProductRows) : Body :=
  match rows with
  | r :: _ => product_json r
  | [] => no_body
  end.

Definition first_sale (rows : SaleRows) : Body :=
  match rows with
  | r :: _ => sale_json r
  | [] => no_body
  end.

(** [app.get('/products')] *)
Definition listProducts (s : Store) : Response * Store :=
  match select_products s with
  | (Ok rows, s') => (json 200 (products_json rows), s')
  | (Err _, s') => (internal_server_error, s')
  end.

(** [app.get('/products/:product_id')] *)
Definition getProduct (id : Z) (s : Store) : Response * Store :=
  match select_product id s with
  | (Ok [], s') => (json 404 (error_json "Product not found"), s')
  | (Ok rows, s') => (json 200 (first_product rows), s')
  | (Err _, s') => (internal_server_error, s')
  end.

(** [app.post('/products')]: only [product_name], [price] and [category] are
    taken from the body. *)
Definition createProduct (b : ProductBody) (s : Store) : Response * Store :=
  match insert_product (b_product_name b) (b_price b) (b_category b) s with
  | (Ok rows, s') => (json 201 (first_product rows), s')
  | (Err _, s') => (internal_server_error, s')
  end.

(** [app.put('/products/:product_id')] *)
Definition updateProduct (id : Z) (b : ProductBody) (s : Store) : Response * Store :=
  match update_product (b_product_name b) (b_price b) (b_category b) id s with
  | (Ok [], s') => (json 404 (error_json "Product not found"), s')
  | (Ok rows, s') => (json 200 (first_product rows), s')
  | (Err _, s') => (internal_server_error, s')
  end.

(** [app.delete('/products/:product_id')] *)
Definition deleteProduct (id : Z) (s : Store) : Response * Store :=
  match delete_product id s with
  | (Ok O, s') => (json 404 (error_json "Product not found"), s')
  | (Ok _, s') => (sendStatus 204, s')
  | (Err _, s') => (internal_server_error, s')
  end.

(** [app.get('/sales')] *)
Definition listSales (s : Store) : Response * Store :=
  match select_sales s with
  | (Ok rows, s') => (json 200 (sales_json rows), s')
  | (Err _, s') => (internal_server_error, s')
  end.

(** [app.get('/sales/:sale_id')] *)
Definition getSale (id : Z) (s : Store) : Response * Store :=
  match select_sale id s with
  | (Ok [], s') => (json 404 (error_json "Sale not found"), s')
  | (Ok rows, s') => (json 200 (first_sale rows), s')
  | (Err _, s') => (internal_server_error, s')
  end.

(** [app.post('/sales')] *)
Definition createSale (b : SaleBody) (s : Store) : Response * Store :=
  match insert_sale (b_customer_id b) (b_product_id b) (b_quantity b) s with
  | (Ok rows, s') => (json 201 (first_sale rows), s')
  | (Err _, s') => (internal_server_error, s')
  end.

(** [app.put('/sales/:sale_id')] *)
Definition updateSale (id : Z) (b : SaleBody) (s : Store) : Response * Store :=
  match update_sale (b_customer_id b) (b_product_id b) (b_quantity b) id s with
  | (Ok [], s') => (json 404 (error_json "Sale not found"), s')
  | (Ok rows, s') => (json 200 (first_sale rows), s')
  | (Err _, s') => (internal_server_error, s')
  end.

(** [app.delete('/sales/:sale_id')] *)
Definition deleteSale (id : Z) (s : Store) : Response * Store :=
  match delete_sale id s with
  | (Ok O, s') => (json 404 (error_json "Sale not found"), s')
  | (Ok _, s') => (sendStatus 204, s')
  | (Err _, s') => (internal_server_error, s')
  end.

(** ** Requests and runs *)

(** A request as a route handler of [app.js] receives it: [req.body] is the
    object [bodyParser.json] parsed, [id] is the integer the path parameter
    denotes.  What the middleware and the framework answer on their own to a
    request that never reaches the handler's statement (a body that is not
    JSON, no body at all) is not code of [app.js] and is not modelled. *)
Inductive Request :=
  | GetProducts
  | GetProduct (id : Z)
  | PostProduct (b : ProductBody)
  | PutProduct (id : Z) (b : ProductBody)
  | DeleteProduct (id : Z)
  | GetSales
  | GetSale (id : Z)
  | PostSale (b : SaleBody)
  | PutSale (id : Z) (b : SaleBody)
  | DeleteSale (id : Z).

(** Route dispatch. *)
Definition handle (r : Request) (s : Store) : Response * Store :=
  match r with
  | GetProducts => listProducts s
  | GetProduct id => getProduct id s
  | PostProduct b => createProduct b s
  | PutProduct id b => updateProduct id b s
  | DeleteProduct id => deleteProduct id s
  | GetSales => listSales s
  | GetSale id => getSale id s
  | PostSale b => createSale b s
  | PutSale id b => updateSale id b s
  | DeleteSale id => deleteSale id s
  end.

(** The handlers hold no state of their own and each runs a single statement,
    which the database executes atomically: an execution of requests, however
    they overlap, is the run of their statements in the order the database
    serialises them. *)
Fixpoint run (rs : list Request) (s : Store) : list Response * Store :=
  match rs with
  | [] => ([], s)
  | r :: rs' =>
    let '(resp, s1) := handle r s in
    let '(resps, s2) := run rs' s1 in
    (resp :: resps, s2)
  end.

(** ** Reading responses and stores *)

(** The typed errors of the spec, as the transport statuses it maps them to. *)
Definition ValidationError (r : Response) : Prop := status r = 400.
Definition NotFound (r : Response) : Prop := status r = 404.
Definition Conflict (r : Response) : Prop := status r = 409.

(** No row of any table created, modified or deleted. *)
Definition same_rows (s s' : Store) : Prop :=
  customers s' = customers s ∧ products s' = products s ∧
  orders s' = orders s ∧ order_items s' = order_items s ∧
  payments s' = payments s ∧ sales s' = sales s.

(** The parameters of a statement are accepted by the columns they are bound
    to. *)
Definition binds {A} (r : Result A) : Prop := ∃ v, r = Ok v.

Definition product_update_binds (id : Z) (b : ProductBody) : Prop :=
  binds (product_values (b_product_name b) (b_price b) (b_category b)) ∧
  in_int4 id = true.

Definition sale_update_binds (id : Z) (b : SaleBody) : Prop :=
  binds (sale_values (b_customer_id b) (b_product_id b) (b_quantity b)) ∧
  in_int4 id = true.

(** The store after a committed [INSERT INTO products]. *)
Definition product_inserted (id : Z) (row : ProductRow) (s : Store) : Store :=
  set_products (insert id row) (set_products_product_id_seq (id + 1) s).

(** The store after a committed [INSERT INTO sales]. *)
Definition sale_inserted (id : Z) (row : SaleRow) (s : Store) : Store :=
  set_sales (insert id row) (set_sales_sale_id_seq (id + 1) s).

(** The value a NUMERIC(10, 2) column keeps of a number, in hundredths. *)
Definition cents (n : JsNumber) : Z :=
  round_half_away (mant n * 100) (pow10 (scale n)).

(** The text is stored as sent in a VARCHAR(n) column. *)
Definition fits (n : nat) (v : option string) : bool :=
  match v with
  | None => true
  | Some v =>
    negb (existsb is_nul (list_ascii_of_string v))
    && (char_length (list_ascii_of_string v) <=? n)%nat
  end.

(** The number, once rounded, is within NUMERIC(10, 2). *)
Definition price_fits (pr : option JsNumber) : bool :=
  match pr with
  | None => true
  | Some n => Z.abs (cents n) <? 10 ^ 10
  end.

(** The value invariant [stock_quantity >= 0] on a row, read the way a CHECK
    constraint reads it: a NULL stock is not a negative stock. *)
Definition stock_nonneg (p : ProductRow) : bool :=
  match stock_quantity p with
  | Some q => 0 <=? q
  | None => true
  end.

Definition stock_invariant (s : Store) : Prop :=
  map_Forall (λ _ p, stock_nonneg p = true) (products s).

(** Every stored product has a NULL stock. *)
Definition stock_all_null (s : Store) : Prop :=
  map_Forall (λ _ p, stock_quantity p = None) (products s).

(** The product rows a response shows to the client. *)
Definition body_products (b : Body) : list ProductRow :=
  match b with
  | products_json rows => rows.*2
  | product_json row => [row.2]
  | _ => []
  end.

(** Every identity the sales sequence has yet to hand out is unused. *)
Definition sale_ids_free (s : Store) : Prop :=
  ∀ k, sales_sale_id_seq s ≤ k → sales s !! k = None.

(** The body names an existing customer and an existing product by integers
    and carries an integer quantity. *)
Definition sale_accepted (s : Store) (b : SaleBody) : Prop :=
  ∃ c p q,
    sale_values (b_customer_id b) (b_product_id b) (b_quantity b)
      = Ok (Some c, Some p, Some q) ∧
    is_Some (customers s !! c) ∧ is_Some (products s !! p).

(** The field is present and names no row of [t]. *)
Definition names_missing {R} (t : gmap Z R) (ref : option JsNumber) : Prop :=
  ∃ n, ref = Some n ∧ ∀ k, int4_of_number n = Ok k → t !! k = None.

(** Every sale names a stored product, or none. *)
Definition sales_reference_products (s : Store) : Prop :=
  map_Forall (λ _ r, fk_holds (products s) (product_id r) = true) (sales s).

(** ** A small shop *)

Definition laptop (stock : option Z) : ProductRow :=
  {| product_name := Some "Laptop"%string; price := Some 120000;
     category := Some "Electronics"%string; description := None;
     stock_quantity := stock |}.

Definition ann : CustomerRow :=
  {| first_name := Some "Ann"%string; last_name := None; email := None;
     phone_number := None; address := None |}.

(** One customer (id 1), one product (id 1) with the given stock, no sale. *)
Definition shop (stock : Z) : Store :=
  {| customers := {[ 1 := ann ]};
     products := {[ 1 := laptop (Some stock) ]};
     orders := ∅; order_items := ∅; payments := ∅; sales := ∅;
     products_product_id_seq := 2; sales_sale_id_seq := 1 |}.

Definition sale_body (c p q : Z) : SaleBody :=
  {| b_customer_id := Some (js_int c); b_product_id := Some (js_int p);
     b_quantity := Some (js_int q) |}.

Definition laptop_body (pr : JsNumber) (stock : option JsNumber) : ProductBody :=
  {| b_product_name := Some "Laptop"%string; b_price := Some pr;
     b_category := Some "Electronics"%string; b_description := None;
     b_stock_quantity := stock |}.

Definition product_body (name : option string) (pr : option JsNumber)
    (cat : option string) (stock : option JsNumber) : ProductBody :=
  {| b_product_name := name; b_price := pr; b_category := cat;
     b_description := None; b_stock_quantity := stock |}.

(** [n] copies of a text. *)
Fixpoint replicate_string (n : nat) (v : string) : string :=
  match n with
  | O => ""
  | S n' => v ++ replicate_string n' v
  end.

(** Thirty euro signs: 30 characters, 90 bytes of UTF-8. *)
Definition euros30 : string := replicate_string 30 "€".

(** The shop after customer 1 bought 6 units of product 1. *)
Definition shop_after_sale : Store := (createSale (sale_body 1 1 6) (shop 10)).2.

(** ** The contracts of the spec, for comparison with the handlers *)

(** What spec sections 3, 4 and 8 require, in the spec's own words; nothing
    here is taken from [app.js]. *)
Module Spec.

(** Shape validation of a sale as spec 4.1 words it: [quantity] a positive
    integer, [customer_id] and [product_id] present. *)
Definition validateSaleInput (b : SaleBody) : bool :=
  match b_customer_id b, b_product_id b, b_quantity b with
  | Some _, Some _, Some q => is_integer q && (0 <? mant q)
  | _, _, _ => false
  end.

(** The contract of spec 4.2 step 3 at one call: customer [c] buys [q] units
    of product [p]. *)
Definition createSale_contract (c p q : Z) (s : Store) : Prop :=
  ∀ prod stock,
    validateSaleInput (sale_body c p q) = true →
    is_Some (customers s !! c) →
    products s !! p = Some prod → stock_quantity prod = Some stock →
    let resp := (createSale (sale_body c p q) s).1 in
    let s' := (createSale (sale_body c p q) s).2 in
    if stock <? q
    then Conflict resp ∧ s' = s
    else (∃ prod', products s' !! p = Some prod' ∧
                   stock_quantity prod' = Some (stock - q)) ∧
         (∃ id row, sales s !! id = None ∧ sales s' = <[id:=row]> (sales s)).

(** Spec 8, race freedom: stock 10, two overlapping sales of 6. *)
Definition race_free_10_6 : Prop :=
  ∀ sched,
    Permutation sched [PostSale (sale_body 1 1 6); PostSale (sale_body 1 1 6)] →
    Permutation (status <$> (run sched (shop 10)).1) [201; 409] ∧
    ∃ prod, products (run sched (shop 10)).2 !! 1 = Some prod ∧
            stock_quantity prod = Some 4.

(** Spec 8, referential integrity, at one call: NotFound and no row changed. *)
Definition createSale_missing_contract (b : SaleBody) (s : Store) : Prop :=
  NotFound (createSale b s).1 ∧ same_rows s (createSale b s).2.

(** Spec 3: the returned sale carries an identity and a timestamp set at
    creation. *)
Definition sale_identity_and_timestamp (resp : Response) : Prop :=
  ∃ id row t, body resp = sale_json (id, row) ∧ timestamp row = Some t.

Definition nonneg_number (n : option JsNumber) : bool :=
  match n with
  | Some n => 0 <=? mant n
  | None => false
  end.

Definition nonempty_string (v : option string) : bool :=
  match v with
  | Some v => negb (String.eqb v "")
  | None => false
  end.

(** Validation of a product as spec 4.1 words it: [price] and
    [stock_quantity] numeric and non-negative, [name] and [category] non-empty
    strings. *)
Definition validateProduct (b : ProductBody) : bool :=
  nonneg_number (b_price b) && nonneg_number (b_stock_quantity b)
  && nonempty_string (b_product_name b) && nonempty_string (b_category b).

(** Spec 4.2 [createProduct] at one call: an input that fails validation is
    answered ValidationError and creates no row. *)
Definition createProduct_validation_contract (b : ProductBody) (s : Store) : Prop :=
  validateProduct b = false →
  ValidationError (createProduct b s).1 ∧
  products (createProduct b s).2 = products s.

(** The stored price [c] (in hundredths) is exactly the number sent. *)
Definition exact_price (n : JsNumber) (c : Z) : Prop :=
  c * pow10 (scale n) = mant n * 100.

(** The stored quantity [q] is exactly the number sent. *)
Definition exact_quantity (n : JsNumber) (q : Z) : Prop :=
  q * pow10 (scale n) = mant n.

(** The row shows the name, price, category and stock_quantity sent. *)
Definition same_fields (b : ProductBody) (row : ProductRow) : Prop :=
  product_name row = b_product_name b ∧
  category row = b_category b ∧
  match b_price b, price row with
  | Some n, Some c => exact_price n c
  | None, None => True
  | _, _ => False
  end ∧
  match b_stock_quantity b, stock_quantity row with
  | Some n, Some q => exact_quantity n q
  | None, None => True
  | _, _ => False
  end.

(** Spec 8, round trip, at one call of [createProduct]. *)
Definition round_trip_contract (b : ProductBody) (s : Store) : Prop :=
  ∀ id row s',
    createProduct b s = (json 201 (product_json (id, row)), s') →
    ∃ row', getProduct id s' = (json 200 (product_json (id, row')), s') ∧
            same_fields b row'.

(** Spec 3 and 8: every stored product has a stock, and it is not negative. *)
Definition stock_present_nonneg (s : Store) : Prop :=
  ∀ id p, products s !! id = Some p → ∃ q, stock_quantity p = Some q ∧ 0 ≤ q.

(** Spec 8, invariant, along one sequence of requests. *)
Definition stock_contract (rs : list Request) (s : Store) : Prop :=
  stock_present_nonneg s → ∀ n, stock_present_nonneg (run (take n rs) s).2.

(** Spec 4.2 [deleteProduct] on an id with no matching row: NotFound. *)
Definition deleteProduct_absent_contract (id : Z) (s : Store) : Prop :=
  products s !! id = None → NotFound (deleteProduct id s).1.

(** An update of an id with no matching row: NotFound, store unchanged. *)
Definition updateProduct_absent_contract (id : Z) (b : ProductBody) (s : Store) : Prop :=
  products s !! id = None →
  NotFound (updateProduct id b s).1 ∧ (updateProduct id b s).2 = s.

Definition updateSale_absent_contract (id : Z) (b : SaleBody) (s : Store) : Prop :=
  sales s !! id = None →
  NotFound (updateSale id b s).1 ∧ (updateSale id b s).2 = s.

End Spec.

(** ** Further readings of requests and stores *)

(** The four GET routes. *)
Definition is_read (r : Request) : bool :=
  match r with
  | GetProducts | GetProduct _ | GetSales | GetSale _ => true
  | _ => false
  end.

(** Every REFERENCES clause of [SHOPEASE.sql] holds in the store. *)
Definition foreign_keys_hold (s : Store) : Prop :=
  map_Forall (λ _ r, fk_holds (customers s) (order_customer_id r) = true ∧
                     fk_holds (products s) (order_product_id r) = true)
             (orders s) ∧
  map_Forall (λ _ r, fk_holds (orders s) (item_order_id r) = true ∧
                     fk_holds (products s) (item_product_id r) = true)
             (order_items s) ∧
  map_Forall (λ _ r, fk_holds (customers s) (payment_customer_id r) = true)
             (payments s) ∧
  map_Forall (λ _ r, fk_holds (customers s) (customer_id r) = true ∧
                     fk_holds (products s) (product_id r) = true)
             (sales s).

(** No identity a sequence has yet to hand out is in use. *)
Definition ids_free (s : Store) : Prop :=
  (∀ k, products_product_id_seq s ≤ k → products s !! k = None) ∧
  (∀ k, sales_sale_id_seq s ≤ k → sales s !! k = None).

(** A value of a VARCHAR(n) column: at most [n] characters, none NUL. *)
Definition text_within (n : nat) (v : option string) : Prop :=
  ∀ t, v = Some t →
    (char_length (list_ascii_of_string t) ≤ n)%nat ∧
    existsb is_nul (list_ascii_of_string t) = false.

(** A value of a NUMERIC(10, 2) column, in hundredths. *)
Definition numeric_within (v : option Z) : Prop :=
  ∀ c, v = Some c → Z.abs c < 10 ^ 10.

(** A value of an INTEGER column. *)
Definition int4_within (v : option Z) : Prop :=
  ∀ z, v = Some z → in_int4 z = true.

(** The columns the handlers write hold values of their declared types. *)
Definition columns_typed (s : Store) : Prop :=
  map_Forall (λ _ p, text_within 100 (product_name p) ∧
                     numeric_within (price p) ∧
                     text_within 50 (category p))
             (products s) ∧
  map_Forall (λ _ r, int4_within (customer_id r) ∧
                     int4_within (product_id r) ∧
                     int4_within (quantity r))
             (sales s).

(** An order of one unit of product [p] by customer 1. *)
Definition order_of (p : Z) : OrderRow :=
  {| order_customer_id := Some 1; order_product_id := Some p;
     order_quantity := Some 1; total_amount := None; order_status := None;
     order_timestamp := None |}.

(** The shop with one order (id 1) of product 1. *)
Definition shop_with_order : Store :=
  {| customers := {[ 1 := ann ]};
     products := {[ 1 := laptop (Some 10) ]};
     orders := {[ 1 := order_of 1 ]};
     order_items := ∅; payments := ∅; sales := ∅;
     products_product_id_seq := 2; sales_sale_id_seq := 1 |}.

(** * Properties of the handlers *)

(** ** Frame lemmas: what each statement leaves alone *)

Ltac unfold_handlers :=
  unfold handle, listProducts, getProduct, createProduct, updateProduct,
    deleteProduct, listSales, getSale, createSale, updateSale, deleteSale,
    select_products, select_product, insert_product, update_product,
    delete_product, select_sales, select_sale, insert_sale, update_sale,
    delete_sale, nextval_products, nextval_sales in *.

Ltac crush_handler :=
  unfold_handlers; repeat case_match; simplify_eq/=.


Lemma handle_customers r s : customers (handle r s).2 = customers s.
Proof. destruct r; crush_handler; done. Qed.

Lemma handle_orders r s : orders (handle r s).2 = orders s.
Proof. destruct r; crush_handler; done. Qed.

Lemma handle_order_items r s : order_items (handle r s).2 = order_items s.
Proof. destruct r; crush_handler; done. Qed.

Lemma handle_payments r s : payments (handle r s).2 = payments s.
Proof. destruct r; crush_handler; done. Qed.

(** ** The two outcomes of each writing handler *)

Lemma createProduct_cases b s :
  (∃ n p c,
      product_values (b_product_name b) (b_price b) (b_category b) = Ok (n, p, c) ∧
      products_product_id_seq s ≤ int4_max ∧
      products s !! products_product_id_seq s = None ∧
      let id := products_product_id_seq s in
      let row := {| product_name := n; price := p; category := c;
                    description := None; stock_quantity := None |} in
      createProduct b s = (json 201 (product_json (id, row)), product_inserted id row s))
  ∨ ((createProduct b s).1 = internal_server_error ∧
     same_rows s (createProduct b s).2 ∧
     (binds (product_values (b_product_name b) (b_price b) (b_category b)) →
      int4_max < products_product_id_seq s ∨
      is_Some (products s !! products_product_id_seq s))).
Proof.
  unfold createProduct, insert_product, nextval_products.
  destruct (product_values _ _ _) as [[[n p] c]|e] eqn:Hv; simpl.
  - destruct (Z.leb_spec (products_product_id_seq s) int4_max) as [Hle|Hgt]; simpl.
    + destruct (products s !! products_product_id_seq s) eqn:Hk; simpl.
      * right. split_and!; [done|by repeat split|eauto].
      * left. exists n, p, c. done.
    + right. split_and!; [done|by repeat split|]. intros _. left. lia.
  - right. split_and!; [done|by repeat split|]. intros [v Hb]. done.
Qed.

Lemma createSale_cases b s :
  (∃ c p q,
      sale_values (b_customer_id b) (b_product_id b) (b_quantity b) = Ok (c, p, q) ∧
      sales_sale_id_seq s ≤ int4_max ∧
      sales s !! sales_sale_id_seq s = None ∧
      fk_holds (customers s) c = true ∧ fk_holds (products s) p = true ∧
      let id := sales_sale_id_seq s in
      let row := {| customer_id := c; product_id := p; quantity := q;
                    timestamp := None |} in
      createSale b s = (json 201 (sale_json (id, row)), sale_inserted id row s))
  ∨ ((createSale b s).1 = internal_server_error ∧
     same_rows s (createSale b s).2 ∧
     (∀ c p q,
        sale_values (b_customer_id b) (b_product_id b) (b_quantity b) = Ok (c, p, q) →
        int4_max < sales_sale_id_seq s ∨
        is_Some (sales s !! sales_sale_id_seq s) ∨
        fk_holds (customers s) c = false ∨ fk_holds (products s) p = false)).
Proof.
  unfold createSale, insert_sale, nextval_sales.
  destruct (sale_values _ _ _) as [[[c p] q]|e] eqn:Hv; simpl.
  - destruct (Z.leb_spec (sales_sale_id_seq s) int4_max) as [Hle|Hgt]; simpl.
    + destruct (sales s !! sales_sale_id_seq s) eqn:Hk; simpl.
      * right. split_and!; [done|by repeat split|]. intros; simplify_eq. eauto.
      * destruct (fk_holds (customers s) c) eqn:Hc; simpl.
        -- destruct (fk_holds (products s) p) eqn:Hp; simpl.
           ++ left. exists c, p, q. done.
           ++ right. split_and!; [done|by repeat split|]. intros; simplify_eq. eauto.
        -- right. split_and!; [done|by repeat split|]. intros; simplify_eq. eauto.
    + right. split_and!; [done|by repeat split|]. intros; simplify_eq. left. lia.
  - right. split_and!; [done|by repeat split|]. intros; simplify_eq.
Qed.

Lemma int4_Ok z : in_int4 z = true → int4 z = Ok z.
Proof. unfold int4. by intros ->. Qed.

Lemma int4_Err z : in_int4 z = false → int4 z = Err numeric_value_out_of_range.
Proof. unfold int4. by intros ->. Qed.

Lemma int4_inv z k : int4 z = Ok k → k = z ∧ in_int4 z = true.
Proof. unfold int4. case_match; naive_solver. Qed.

Lemma updateProduct_rejected id b s :
  ¬ product_update_binds id b →
  updateProduct id b s = (internal_server_error, s).
Proof.
  intros Hn. unfold updateProduct, update_product.
  destruct (product_values _ _ _) as [v|e] eqn:Hv; simpl; [|done].
  destruct (in_int4 id) eqn:Hid.
  - destruct Hn. split; [by exists v|done].
  - by rewrite int4_Err.
Qed.

Lemma updateProduct_not_found id b s :
  product_update_binds id b → products s !! id = None →
  updateProduct id b s = (json 404 (error_json "Product not found"), s).
Proof.
  intros [[[[n p] c] Hv] Hid] Hk. unfold updateProduct, update_product.
  rewrite Hv; simpl. rewrite int4_Ok by done; simpl. by rewrite Hk.
Qed.

Lemma updateProduct_found id b s old n p c :
  product_values (b_product_name b) (b_price b) (b_category b) = Ok (n, p, c) →
  in_int4 id = true → products s !! id = Some old →
  let row := {| product_name := n; price := p; category := c;
                description := description old;
                stock_quantity := stock_quantity old |} in
  updateProduct id b s =
    (json 200 (product_json (id, row)), set_products (insert id row) s).
Proof.
  intros Hv Hid Hk. unfold updateProduct, update_product.
  rewrite Hv; simpl. rewrite int4_Ok by done; simpl. by rewrite Hk.
Qed.

Lemma product_update_binds_dec id b :
  product_update_binds id b ∨ ¬ product_update_binds id b.
Proof.
  unfold product_update_binds, binds.
  destruct (product_values _ _ _) as [v|e]; destruct (in_int4 id).
  - left. eauto.
  - right. by intros [_ ?].
  - right. by intros [[? ?] _].
  - right. by intros [_ ?].
Qed.

Lemma updateSale_rejected id b s :
  ¬ sale_update_binds id b →
  updateSale id b s = (internal_server_error, s).
Proof.
  intros Hn. unfold updateSale, update_sale.
  destruct (sale_values _ _ _) as [v|e] eqn:Hv; simpl; [|done].
  destruct (in_int4 id) eqn:Hid.
  - destruct Hn. split; [by exists v|done].
  - by rewrite int4_Err.
Qed.

Lemma updateSale_not_found id b s :
  sale_update_binds id b → sales s !! id = None →
  updateSale id b s = (json 404 (error_json "Sale not found"), s).
Proof.
  intros [[[[c p] q] Hv] Hid] Hk. unfold updateSale, update_sale.
  rewrite Hv; simpl. rewrite int4_Ok by done; simpl. by rewrite Hk.
Qed.

Lemma updateSale_found id b s old c p q :
  sale_values (b_customer_id b) (b_product_id b) (b_quantity b) = Ok (c, p, q) →
  in_int4 id = true → sales s !! id = Some old →
  let row := {| customer_id := c; product_id := p; quantity := q;
                timestamp := timestamp old |} in
  updateSale id b s =
    if fk_holds_upd (customers s) (customer_id old) c
       && fk_holds_upd (products s) (product_id old) p
    then (json 200 (sale_json (id, row)), set_sales (insert id row) s)
    else (internal_server_error, s).
Proof.
  intros Hv Hid Hk. unfold updateSale, update_sale.
  rewrite Hv; simpl. rewrite int4_Ok by done; simpl. rewrite Hk.
  by destruct (fk_holds_upd (customers s) _ c && fk_holds_upd (products s) _ p).
Qed.

Lemma sale_update_binds_dec id b :
  sale_update_binds id b ∨ ¬ sale_update_binds id b.
Proof.
  unfold sale_update_binds, binds.
  destruct (sale_values _ _ _) as [v|e]; destruct (in_int4 id).
  - left. eauto.
  - right. by intros [_ ?].
  - right. by intros [[? ?] _].
  - right. by intros [_ ?].
Qed.

Lemma deleteProduct_out_of_range id s :
  in_int4 id = false → deleteProduct id s = (internal_server_error, s).
Proof. intros H. unfold deleteProduct, delete_product. by rewrite int4_Err. Qed.

Lemma deleteProduct_not_found id s :
  in_int4 id = true → products s !! id = None →
  deleteProduct id s = (json 404 (error_json "Product not found"), s).
Proof.
  intros Hid Hk. unfold deleteProduct, delete_product.
  rewrite int4_Ok by done. by rewrite Hk.
Qed.

Lemma deleteProduct_referenced id s :
  in_int4 id = true → is_Some (products s !! id) →
  product_referenced id s = true →
  deleteProduct id s = (internal_server_error, s).
Proof.
  intros Hid [old Hk] Hr. unfold deleteProduct, delete_product.
  rewrite int4_Ok by done. by rewrite Hk, Hr.
Qed.

Lemma deleteProduct_deleted id s :
  in_int4 id = true → is_Some (products s !! id) →
  product_referenced id s = false →
  deleteProduct id s = (sendStatus 204, set_products (delete id) s).
Proof.
  intros Hid [old Hk] Hr. unfold deleteProduct, delete_product.
  rewrite int4_Ok by done. by rewrite Hk, Hr.
Qed.

Lemma deleteSale_cases id s :
  deleteSale id s = (internal_server_error, s) ∨
  deleteSale id s = (json 404 (error_json "Sale not found"), s) ∨
  deleteSale id s = (sendStatus 204, set_sales (delete id) s).
Proof.
  unfold deleteSale, delete_sale, int4. repeat case_match; simplify_eq/=; eauto.
Qed.

Lemma updateProduct_cases id b s :
  updateProduct id b s = (internal_server_error, s) ∨
  (products s !! id = None ∧
   updateProduct id b s = (json 404 (error_json "Product not found"), s)) ∨
  (∃ old n p c,
     products s !! id = Some old ∧
     product_values (b_product_name b) (b_price b) (b_category b) = Ok (n, p, c) ∧
     let row := {| product_name := n; price := p; category := c;
                   description := description old;
                   stock_quantity := stock_quantity old |} in
     updateProduct id b s =
       (json 200 (product_json (id, row)), set_products (insert id row) s)).
Proof.
  destruct (product_update_binds_dec id b) as [Hb|Hb].
  - destruct (products s !! id) as [old|] eqn:Hk.
    + right; right. destruct Hb as [[[[n p] c] Hv] Hid].
      exists old, n, p, c. split_and!; [done..|]. by apply updateProduct_found.
    + right; left. split; [done|]. by apply updateProduct_not_found.
  - left. by apply updateProduct_rejected.
Qed.

Lemma updateSale_cases id b s :
  updateSale id b s = (internal_server_error, s) ∨
  (sales s !! id = None ∧
   updateSale id b s = (json 404 (error_json "Sale not found"), s)) ∨
  (∃ old c p q,
     sales s !! id = Some old ∧
     sale_values (b_customer_id b) (b_product_id b) (b_quantity b) = Ok (c, p, q) ∧
     fk_holds_upd (customers s) (customer_id old) c = true ∧
     fk_holds_upd (products s) (product_id old) p = true ∧
     let row := {| customer_id := c; product_id := p; quantity := q;
                   timestamp := timestamp old |} in
     updateSale id b s =
       (json 200 (sale_json (id, row)), set_sales (insert id row) s)).
Proof.
  destruct (sale_update_binds_dec id b) as [Hb|Hb].
  - destruct (sales s !! id) as [old|] eqn:Hk.
    + destruct Hb as [[[[c p] q] Hv] Hid].
      pose proof (updateSale_found id b s old c p q Hv Hid Hk) as Hu.
      simpl in Hu.
      destruct (fk_holds_upd (customers s) (customer_id old) c) eqn:Hc;
        destruct (fk_holds_upd (products s) (product_id old) p) eqn:Hp;
        simpl in Hu; try (by left).
      right; right. exists old, c, p, q. done.
    + right; left. split; [done|]. by apply updateSale_not_found.
  - left. by apply updateSale_rejected.
Qed.

Lemma deleteProduct_cases id s :
  deleteProduct id s = (internal_server_error, s) ∨
  (products s !! id = None ∧
   deleteProduct id s = (json 404 (error_json "Product not found"), s)) ∨
  (is_Some (products s !! id) ∧ product_referenced id s = false ∧
   deleteProduct id s = (sendStatus 204, set_products (delete id) s)).
Proof.
  destruct (in_int4 id) eqn:Hid.
  - destruct (products s !! id) as [old|] eqn:Hk.
    + destruct (product_referenced id s) eqn:Hr.
      * left. apply deleteProduct_referenced; eauto.
      * right; right. split_and!; eauto. apply deleteProduct_deleted; eauto.
    + right; left. split; [done|]. by apply deleteProduct_not_found.
  - left. by apply deleteProduct_out_of_range.
Qed.

Lemma getProduct_cases id s :
  getProduct id s = (internal_server_error, s) ∨
  (products s !! id = None ∧
   getProduct id s = (json 404 (error_json "Product not found"), s)) ∨
  (∃ p, products s !! id = Some p ∧
        getProduct id s = (json 200 (product_json (id, p)), s)).
Proof.
  unfold getProduct, select_product, row_of.
  destruct (in_int4 id) eqn:Hid.
  - rewrite int4_Ok by done. simpl.
    destruct (products s !! id) as [p|] eqn:Hk; eauto.
  - rewrite int4_Err by done. eauto.
Qed.

Lemma getSale_cases id s :
  getSale id s = (internal_server_error, s) ∨
  (sales s !! id = None ∧
   getSale id s = (json 404 (error_json "Sale not found"), s)) ∨
  (∃ r, sales s !! id = Some r ∧
        getSale id s = (json 200 (sale_json (id, r)), s)).
Proof.
  unfold getSale, select_sale, row_of.
  destruct (in_int4 id) eqn:Hid.
  - rewrite int4_Ok by done. simpl.
    destruct (sales s !! id) as [r|] eqn:Hk; eauto.
  - rewrite int4_Err by done. eauto.
Qed.

(** Requests that only read, or that write [sales], leave [products] alone. *)
Lemma sales_requests_products r s :
  match r with
  | PostProduct _ | PutProduct _ _ | DeleteProduct _ => True
  | _ => products (handle r s).2 = products s
  end.
Proof. destruct r; crush_handler; done. Qed.

Lemma handle_stock_quantity r s id p :
  products s !! id = Some p →
  match products (handle r s).2 !! id with
  | Some p' => stock_quantity p' = stock_quantity p
  | None => r = DeleteProduct id
  end.
Proof.
  intros Hp.
  destruct r as [|k|b|k b|k| |k|b|k b|k];
    try (match goal with
         | |- context [handle ?r s] =>
             rewrite (sales_requests_products r s
                      : products (handle r s).2 = products s)
         end; by rewrite Hp).
  - simpl. destruct (createProduct_cases b s) as [(n&pr&c&_&_&Hfree&Hc)|(_&Hsame&_)].
    + simpl in Hc. rewrite Hc. simpl.
      rewrite lookup_insert_ne by congruence. by rewrite Hp.
    + destruct Hsame as (_&->&_). by rewrite Hp.
  - simpl. destruct (updateProduct_cases k b s) as [->|[[_ ->]|(old&n&pr&c&Hk&_&->)]];
      simpl; try by rewrite Hp.
    destruct (decide (k = id)) as [->|Hne].
    + rewrite lookup_insert_eq. simpl. by simplify_eq.
    + rewrite lookup_insert_ne by done. by rewrite Hp.
  - simpl. destruct (deleteProduct_cases k s) as [->|[[_ ->]|(_&_&->)]];
      simpl; try by rewrite Hp.
    destruct (decide (k = id)) as [->|Hne].
    + by rewrite lookup_delete_eq.
    + rewrite lookup_delete_ne by done. by rewrite Hp.
Qed.

(** ** Updates of an absent row *)

(** No product 7 and no sale 7 are stored, yet an update whose price is
    beyond NUMERIC(10, 2), whose name has 101 characters, or whose quantity is
    2.5 is answered 500, not 404. *)
Lemma update_absent_contract_fails :
  products (shop 10) !! 7 = None ∧ sales (shop 10) !! 7 = None ∧
  ¬ Spec.updateProduct_absent_contract 7
      (laptop_body (js_int 100000000) None) (shop 10) ∧
  ¬ Spec.updateProduct_absent_contract 7
      (product_body (Some (replicate_string 101 "a")) None None None) (shop 10) ∧
  ¬ Spec.updateSale_absent_contract 7
      {| b_customer_id := Some (js_int 1); b_product_id := Some (js_int 1);
         b_quantity := Some {| mant := 25; scale := 1 |} |} (shop 10).
Proof.
  split_and!; [reflexivity|reflexivity|..]; intros H;
    destruct H as [H _]; try reflexivity; vm_compute in H; done.
Qed.

(** C10, as the code has it.  [updateProduct] and [updateSale] on an id with
    no matching row leave the whole store as it was.  They answer 404 when the
    statement's parameters bind to the types of their columns, the only way to
    reach the row test, and 500 when one does not; conversely a 404 answer
    means that no row had the id and that the store is untouched. *)
Theorem update_absent_row_404_store_unchanged
    (id : Z) (pb : ProductBody) (sb : SaleBody) (s : Store) :
  (products s !! id = None →
     (updateProduct id pb s).2 = s ∧
     (product_update_binds id pb →
      (updateProduct id pb s).1 = json 404 (error_json "Product not found"))) ∧
  (NotFound (updateProduct id pb s).1 →
     products s !! id = None ∧ (updateProduct id pb s).2 = s) ∧
  (sales s !! id = None →
     (updateSale id sb s).2 = s ∧
     (sale_update_binds id sb →
      (updateSale id sb s).1 = json 404 (error_json "Sale not found"))) ∧
  (NotFound (updateSale id sb s).1 →
     sales s !! id = None ∧ (updateSale id sb s).2 = s) ∧
  (¬ product_update_binds id pb →
     updateProduct id pb s = (internal_server_error, s)) ∧
  (¬ sale_update_binds id sb →
     updateSale id sb s = (internal_server_error, s)).
Proof.
  unfold NotFound. split_and!;
    [| | | |apply updateProduct_rejected|apply updateSale_rejected].
  - intros Hk. split.
    + destruct (product_update_binds_dec id pb) as [Hb|Hb].
      * by rewrite updateProduct_not_found.
      * by rewrite updateProduct_rejected.
    + intros Hb. by rewrite updateProduct_not_found.
  - destruct (updateProduct_cases id pb s)
      as [->|[[Hk ->]|(old&n&p&c&_&_&->)]]; simpl; done.
  - intros Hk. split.
    + destruct (sale_update_binds_dec id sb) as [Hb|Hb].
      * by rewrite updateSale_not_found.
      * by rewrite updateSale_rejected.
    + intros Hb. by rewrite updateSale_not_found.
  - destruct (updateSale_cases id sb s)
      as [->|[[Hk ->]|(old&c&p&q&_&_&_&_&->)]]; simpl; done.
Qed.

Lemma update_absent_row_404_store_unchanged_witness :
  products (shop 10) !! 7 = None ∧
  product_update_binds 7 (laptop_body (js_int 999) None) ∧
  sales (shop 10) !! 7 = None ∧
  sale_update_binds 7 (sale_body 1 1 2) ∧
  updateProduct 7 (laptop_body (js_int 999) None) (shop 10)
    = (json 404 (error_json "Product not found"), shop 10) ∧
  updateSale 7 (sale_body 1 1 2) (shop 10)
    = (json 404 (error_json "Sale not found"), shop 10) ∧
  ¬ product_update_binds 7 (laptop_body (js_int 100000000) None) ∧
  updateProduct 7 (laptop_body (js_int 100000000) None) (shop 10)
    = (internal_server_error, shop 10).
Proof.
  assert (Hp : products (shop 10) !! 7 = None) by reflexivity.
  assert (Hs : sales (shop 10) !! 7 = None) by reflexivity.
  assert (Hpb : product_update_binds 7 (laptop_body (js_int 999) None)).
  { split; [eexists; reflexivity | reflexivity]. }
  assert (Hsb : sale_update_binds 7 (sale_body 1 1 2)).
  { split; [eexists; reflexivity | reflexivity]. }
  assert (Hnb : ¬ product_update_binds 7 (laptop_body (js_int 100000000) None)).
  { intros [[v Hv] _]. vm_compute in Hv. done. }
  destruct (update_absent_row_404_store_unchanged 7
              (laptop_body (js_int 999) None) (sale_body 1 1 2) (shop 10))
    as (H1 & _ & H3 & _).
  destruct (update_absent_row_404_store_unchanged 7
              (laptop_body (js_int 100000000) None) (sale_body 1 1 2) (shop 10))
    as (_ & _ & _ & _ & H5 & _).
  destruct (H1 Hp) as [E1 R1]. destruct (H3 Hs) as [E3 R3].
  specialize (R1 Hpb). specialize (R3 Hsb).
  split_and!; [done..| | |exact Hnb|exact (H5 Hnb)];
    by apply injective_projections.
Defined.

(** ** The stock column is never written *)

Lemma createSale_products b s : products (createSale b s).2 = products s.
Proof. apply (sales_requests_products (PostSale b) s). Qed.

Lemma createSale_sales b s :
  sales (createSale b s).2 = sales s ∨
  ∃ id row, sales s !! id = None ∧ sales (createSale b s).2 = <[id:=row]> (sales s).
Proof.
  destruct (createSale_cases b s) as [(c&p&q&_&_&Hfree&_&_&Hc)|(_&Hsame&_)].
  - right. simpl in Hc. rewrite Hc. simpl. eauto.
  - left. apply Hsame.
Qed.

(** C9. No operation writes the [stock_quantity] column.  A product stored
    before a request either keeps its stock or is the row removed by
    [deleteProduct]; [createProduct] stores the three bound columns and leaves
    [description] and [stock_quantity] NULL; [updateProduct] replaces only
    those three columns, of the addressed row only; [createSale] leaves the
    products table as it is and at most inserts one sale. *)
Theorem no_operation_writes_stock_quantity (s : Store) :
  (∀ r id p, products s !! id = Some p →
     match products (handle r s).2 !! id with
     | Some p' => stock_quantity p' = stock_quantity p
     | None => r = DeleteProduct id
     end) ∧
  (∀ b id p,
     products s !! id = None → products (createProduct b s).2 !! id = Some p →
     product_values (b_product_name b) (b_price b) (b_category b)
       = Ok (product_name p, price p, category p) ∧
     description p = None ∧ stock_quantity p = None) ∧
  (∀ k b id p p',
     products s !! id = Some p → products (updateProduct k b s).2 !! id = Some p' →
     description p' = description p ∧ stock_quantity p' = stock_quantity p ∧
     (id ≠ k → p' = p)) ∧
  (∀ b,
     products (createSale b s).2 = products s ∧
     (sales (createSale b s).2 = sales s ∨
      ∃ id row, sales s !! id = None ∧
                sales (createSale b s).2 = <[id:=row]> (sales s))).
Proof.
  split_and!.
  - intros r id p Hp. by apply handle_stock_quantity.
  - intros b id p Hnone Hsome.
    destruct (createProduct_cases b s) as [(n&pr&c&Hv&_&_&Hc)|(_&Hsame&_)].
    + simpl in Hc. rewrite Hc in Hsome. simpl in Hsome.
      destruct (decide (products_product_id_seq s = id)) as [Heq|Hne].
      * rewrite Heq, lookup_insert_eq in Hsome. by simplify_eq.
      * rewrite lookup_insert_ne in Hsome by done. congruence.
    + destruct Hsame as (_&Hprod&_). rewrite Hprod in Hsome. congruence.
  - intros k b id p p' Hp Hp'.
    destruct (updateProduct_cases k b s) as [E|[[_ E]|(old&n&pr&c&Hk&_&E)]];
      rewrite E in Hp'; simpl in Hp'; try (by simplify_eq).
    destruct (decide (k = id)) as [->|Hne].
    + rewrite lookup_insert_eq in Hp'. by simplify_eq.
    + rewrite lookup_insert_ne in Hp' by done. by simplify_eq.
  - intros b. split; [apply createSale_products | apply createSale_sales].
Qed.

Lemma no_operation_writes_stock_quantity_witness :
  products (shop 10) !! 1 = Some (laptop (Some 10)) ∧
  match products (handle (PostSale (sale_body 1 1 6)) (shop 10)).2 !! 1 with
  | Some p' => stock_quantity p' = Some 10
  | None => PostSale (sale_body 1 1 6) = DeleteProduct 1
  end.
Proof.
  split; [reflexivity|].
  apply (proj1 (no_operation_writes_stock_quantity (shop 10))
           (PostSale (sale_body 1 1 6)) 1 (laptop (Some 10))).
  reflexivity.
Defined.

(** ** Stock never negative *)

Lemma handle_new_product r s id p' :
  products s !! id = None → products (handle r s).2 !! id = Some p' →
  stock_quantity p' = None.
Proof.
  intros Hnone Hsome.
  destruct r as [|k|b|k b|k| |k|b|k b|k];
    try (match goal with
         | H : context [handle ?r s] |- _ =>
             rewrite (sales_requests_products r s
                      : products (handle r s).2 = products s) in H
         end; congruence); simpl in Hsome.
  - destruct (createProduct_cases b s) as [(n&pr&c&Hv&_&_&Hc)|(_&Hsame&_)].
    + simpl in Hc. rewrite Hc in Hsome. simpl in Hsome.
      destruct (decide (products_product_id_seq s = id)) as [Heq|Hne].
      * rewrite Heq, lookup_insert_eq in Hsome. by simplify_eq.
      * rewrite lookup_insert_ne in Hsome by done. congruence.
    + destruct Hsame as (_&Hprod&_). rewrite Hprod in Hsome. congruence.
  - destruct (updateProduct_cases k b s) as [E|[[_ E]|(old&n&pr&c&Hk&_&E)]];
      rewrite E in Hsome; simpl in Hsome; try congruence.
    destruct (decide (k = id)) as [->|Hne]; [congruence|].
    rewrite lookup_insert_ne in Hsome by done. congruence.
  - destruct (deleteProduct_cases k s) as [E|[[_ E]|(_&_&E)]];
      rewrite E in Hsome; simpl in Hsome; try congruence.
    apply lookup_delete_Some in Hsome as [_ ?]. congruence.
Qed.

Lemma handle_stock_invariant r s :
  stock_invariant s → stock_invariant (handle r s).2.
Proof.
  intros Hinv id p' Hp'.
  destruct (products s !! id) as [p|] eqn:Hp.
  - pose proof (handle_stock_quantity r s id p Hp) as Hs.
    rewrite Hp' in Hs. unfold stock_nonneg. rewrite Hs. by apply (Hinv id p).
  - unfold stock_nonneg. by rewrite (handle_new_product r s id p' Hp Hp').
Qed.

Lemma handle_response_stock r s p :
  stock_invariant s → p ∈ body_products (body (handle r s).1) →
  stock_nonneg p = true.
Proof.
  intros Hinv.
  destruct r as [|k|b|k b|k| |k|b|k b|k]; simpl.
  - unfold listProducts, select_products. simpl.
    intros ((k&p0)&->&Hin)%list_elem_of_fmap.
    apply elem_of_map_to_list in Hin. by apply (Hinv k).
  - destruct (getProduct_cases k s) as [E|[[_ E]|(p0&Hk&E)]]; rewrite E; simpl.
    + by intros ?%elem_of_nil.
    + by intros ?%elem_of_nil.
    + intros ->%list_elem_of_singleton. by apply (Hinv k p0).
  - destruct (createProduct_cases b s) as [(n&pr&c&_&_&_&Hc)|(E&_&_)].
    + simpl in Hc. rewrite Hc. simpl. by intros ->%list_elem_of_singleton.
    + rewrite E. simpl. by intros ?%elem_of_nil.
  - destruct (updateProduct_cases k b s) as [E|[[_ E]|(old&n&pr&c&Hk&_&E)]];
      rewrite E; simpl.
    + by intros ?%elem_of_nil.
    + by intros ?%elem_of_nil.
    + intros ->%list_elem_of_singleton. by apply (Hinv k old).
  - destruct (deleteProduct_cases k s) as [E|[[_ E]|(_&_&E)]];
      rewrite E; simpl; by intros ?%elem_of_nil.
  - unfold listSales, select_sales. simpl. by intros ?%elem_of_nil.
  - destruct (getSale_cases k s) as [E|[[_ E]|(r0&_&E)]];
      rewrite E; simpl; by intros ?%elem_of_nil.
  - destruct (createSale_cases b s) as [(c&p0&q&_&_&_&_&_&Hc)|(E&_&_)].
    + simpl in Hc. rewrite Hc. simpl. by intros ?%elem_of_nil.
    + rewrite E. simpl. by intros ?%elem_of_nil.
  - destruct (updateSale_cases k b s)
      as [E|[[_ E]|(old&c&p0&q&_&_&_&_&E)]]; rewrite E; simpl;
      by intros ?%elem_of_nil.
  - destruct (deleteSale_cases k s) as [E|[E|E]]; rewrite E; simpl;
      by intros ?%elem_of_nil.
Qed.

Lemma run_cons r rs s :
  run (r :: rs) s =
    ((handle r s).1 :: (run rs (handle r s).2).1, (run rs (handle r s).2).2).
Proof.
  simpl. destruct (handle r s) as [resp s1]. simpl.
  by destruct (run rs s1) as [resps s2].
Qed.

Lemma run_stock_invariant rs s :
  stock_invariant s → stock_invariant (run rs s).2.
Proof.
  revert s. induction rs as [|r rs IH]; intros s Hinv; [done|].
  rewrite run_cons. simpl. by apply IH, handle_stock_invariant.
Qed.

Lemma run_responses_stock rs s :
  stock_invariant s →
  Forall (λ resp, Forall (λ p, stock_nonneg p = true) (body_products (body resp)))
         (run rs s).1.
Proof.
  revert s. induction rs as [|r rs IH]; intros s Hinv; [by constructor|].
  rewrite run_cons. simpl. constructor.
  - apply Forall_forall. intros p Hp. by apply (handle_response_stock r s).
  - by apply IH, handle_stock_invariant.
Qed.

Lemma empty_store_stock_invariant : stock_invariant empty_store.
Proof. unfold stock_invariant. simpl. apply map_Forall_empty. Qed.

Lemma handle_stock_all_null r s :
  stock_all_null s → stock_all_null (handle r s).2.
Proof.
  intros Hnull id p' Hp'.
  destruct (products s !! id) as [p|] eqn:Hp.
  - pose proof (handle_stock_quantity r s id p Hp) as Hs.
    rewrite Hp' in Hs. rewrite Hs. by apply (Hnull id p).
  - by apply (handle_new_product r s id p' Hp Hp').
Qed.

Lemma run_stock_all_null rs s :
  stock_all_null s → stock_all_null (run rs s).2.
Proof.
  revert s. induction rs as [|r rs IH]; intros s Hinv; [done|].
  rewrite run_cons. simpl. by apply IH, handle_stock_all_null.
Qed.

(** The first product created in the fresh database is stored with a NULL
    stock, whatever [stock_quantity] was sent: it has no stock that is at
    least 0. *)
Lemma stock_contract_fails :
  ¬ Spec.stock_contract
      [PostProduct (laptop_body (js_int 1200) (Some (js_int 5)))] empty_store.
Proof.
  intros H.
  assert (H0 : Spec.stock_present_nonneg empty_store).
  { intros id p Hp. simpl in Hp. by rewrite lookup_empty in Hp. }
  destruct (H H0 1%nat 1 (laptop None) eq_refl) as (q & Hq & _).
  done.
Qed.

(** C2, as the code has it.  For every sequence of requests started in a
    store where every product has a NULL or non-negative stock, every stored
    product has a NULL or non-negative stock after every prefix of the
    sequence, and so has every product row shown in a response: no request
    makes a stock negative.  The handlers never give a product a stock: where
    every stock is NULL at the start (the freshly created database is such a
    store), every stock is NULL after every prefix. *)
Theorem stock_quantity_never_negative (rs : list Request) (s : Store) :
  (stock_invariant s →
   (∀ n, stock_invariant (run (take n rs) s).2) ∧
   Forall (λ resp, Forall (λ p, stock_nonneg p = true) (body_products (body resp)))
          (run rs s).1) ∧
  (stock_all_null s → ∀ n, stock_all_null (run (take n rs) s).2).
Proof.
  split.
  - intros Hinv. split.
    + intros n. by apply run_stock_invariant.
    + by apply run_responses_stock.
  - intros Hnull n. by apply run_stock_all_null.
Qed.

Lemma stock_quantity_never_negative_witness :
  stock_invariant (shop 10) ∧
  stock_invariant
    (run [PostSale (sale_body 1 1 6);
          PutProduct 1 (laptop_body (js_int 999) (Some (js_int (-3))));
          PostProduct (laptop_body (js_int 1200) (Some (js_int 5)))] (shop 10)).2 ∧
  products
    (run [PostSale (sale_body 1 1 6);
          PutProduct 1 (laptop_body (js_int 999) (Some (js_int (-3))));
          PostProduct (laptop_body (js_int 1200) (Some (js_int 5)))] (shop 10)).2
    !! 1 = Some {| product_name := Some "Laptop"%string; price := Some 99900;
                   category := Some "Electronics"%string; description := None;
                   stock_quantity := Some 10 |} ∧
  stock_all_null empty_store ∧
  stock_all_null
    (run [PostProduct (laptop_body (js_int 1200) (Some (js_int 5)))] empty_store).2 ∧
  products
    (run [PostProduct (laptop_body (js_int 1200) (Some (js_int 5)))] empty_store).2
    !! 1 = Some (laptop None).
Proof.
  assert (H10 : stock_invariant (shop 10)).
  { unfold stock_invariant. simpl. by apply map_Forall_singleton. }
  assert (H0 : stock_all_null empty_store).
  { unfold stock_all_null. simpl. apply map_Forall_empty. }
  split_and!; [exact H10| |reflexivity|exact H0| |reflexivity].
  - exact (proj1 (proj1 (stock_quantity_never_negative
             [PostSale (sale_body 1 1 6);
              PutProduct 1 (laptop_body (js_int 999) (Some (js_int (-3))));
              PostProduct (laptop_body (js_int 1200) (Some (js_int 5)))]
             (shop 10)) H10) 3%nat).
  - exact (proj2 (stock_quantity_never_negative
             [PostProduct (laptop_body (js_int 1200) (Some (js_int 5)))]
             empty_store) H0 1%nat).
Defined.

(** ** Recording a sale *)

(** A sale naming an existing customer and product fails only for want of an
    identity. *)
Lemma createSale_accepted b s c p q :
  sale_values (b_customer_id b) (b_product_id b) (b_quantity b)
    = Ok (Some c, Some p, Some q) →
  is_Some (customers s !! c) → is_Some (products s !! p) →
  let id := sales_sale_id_seq s in
  let row := {| customer_id := Some c; product_id := Some p;
                quantity := Some q; timestamp := None |} in
  (id ≤ int4_max ∧ sales s !! id = None ∧
   createSale b s = (json 201 (sale_json (id, row)), sale_inserted id row s)) ∨
  ((int4_max < id ∨ is_Some (sales s !! id)) ∧
   (createSale b s).1 = internal_server_error ∧
   same_rows s (createSale b s).2).
Proof.
  intros Hv Hc Hp id row.
  destruct (createSale_cases b s)
    as [(c'&p'&q'&Hv'&Hle&Hfree&_&_&E)|(E&Hsame&Hwhy)].
  - left. rewrite Hv in Hv'. by simplify_eq.
  - right. split_and!; [|done..].
    destruct (Hwhy _ _ _ Hv) as [?|[?|[Hf|Hf]]]; [by left|by right|..].
    + simpl in Hf. by rewrite bool_decide_eq_false in Hf.
    + simpl in Hf. by rewrite bool_decide_eq_false in Hf.
Qed.

(** With 10 in stock, a sale of 6 is inserted without the decrement, and a
    sale of 11 is inserted instead of failing with Conflict. *)
Lemma createSale_contract_fails :
  ¬ Spec.createSale_contract 1 1 6 (shop 10) ∧ ¬ Spec.createSale_contract 1 1 11 (shop 10).
Proof.
  split; intros H.
  - destruct (H (laptop (Some 10)) 10) as [(prod'&Hp&Hs) _];
      [reflexivity|by eexists|reflexivity|reflexivity|].
    vm_compute in Hp. by simplify_eq.
  - destruct (H (laptop (Some 10)) 10) as [Hc _];
      [reflexivity|by eexists|reflexivity|reflexivity|].
    vm_compute in Hc. done.
Qed.

(** C1, as the code has it.  A [createSale] whose three fields bind to
    integers naming an existing customer and an existing product never reads
    or writes stock: it never answers Conflict and leaves the products table
    as it was, whatever the stock.  When the identity drawn from the sequence
    is in range and unused it answers 201 and its single statement inserts
    exactly one sale row, with that identity and a NULL timestamp; otherwise
    it answers 500 and no row of any table changes. *)
Theorem createSale_inserts_without_touching_stock
    (b : SaleBody) (s : Store) (c p q : Z) :
  sale_values (b_customer_id b) (b_product_id b) (b_quantity b)
    = Ok (Some c, Some p, Some q) →
  is_Some (customers s !! c) → is_Some (products s !! p) →
  let id := sales_sale_id_seq s in
  let row := {| customer_id := Some c; product_id := Some p;
                quantity := Some q; timestamp := None |} in
  ¬ Conflict (createSale b s).1 ∧
  products (createSale b s).2 = products s ∧
  ((id ≤ int4_max ∧ sales s !! id = None ∧
    createSale b s = (json 201 (sale_json (id, row)), sale_inserted id row s)) ∨
   ((int4_max < id ∨ is_Some (sales s !! id)) ∧
    (createSale b s).1 = internal_server_error ∧
    same_rows s (createSale b s).2)).
Proof.
  intros Hv Hc Hp id row. unfold Conflict.
  split_and!; [|apply createSale_products|by apply createSale_accepted].
  destruct (createSale_cases b s) as [(?&?&?&_&_&_&_&_&E)|(E&_&_)].
  - simpl in E. by rewrite E.
  - by rewrite E.
Qed.

Lemma createSale_inserts_without_touching_stock_witness :
  sale_values (Some (js_int 1)) (Some (js_int 1)) (Some (js_int 11))
    = Ok (Some 1, Some 1, Some 11) ∧
  is_Some (customers (shop 10) !! 1) ∧ is_Some (products (shop 10) !! 1) ∧
  ¬ Conflict (createSale (sale_body 1 1 11) (shop 10)).1 ∧
  products (createSale (sale_body 1 1 11) (shop 10)).2 = products (shop 10).
Proof.
  assert (Hv : sale_values (Some (js_int 1)) (Some (js_int 1)) (Some (js_int 11))
               = Ok (Some 1, Some 1, Some 11)) by reflexivity.
  assert (Hc : is_Some (customers (shop 10) !! 1)) by (by eexists).
  assert (Hp : is_Some (products (shop 10) !! 1)) by (by eexists).
  destruct (createSale_inserts_without_touching_stock
              (sale_body 1 1 11) (shop 10) 1 1 11 Hv Hc Hp) as (H1 & H2 & _).
  done.
Defined.

(** ** Overlapping sales of one product *)

(** Both sales are accepted and the stock is still 10. *)
Lemma race_free_10_6_fails : ¬ Spec.race_free_10_6.
Proof.
  intros H.
  destruct (H [PostSale (sale_body 1 1 6); PostSale (sale_body 1 1 6)])
    as [Hst (prod&Hp&Hs)]; [done|].
  vm_compute in Hp. by simplify_eq.
Qed.

Lemma run_sales_all_created bs s :
  Forall (sale_accepted s) bs → sale_ids_free s →
  sales_sale_id_seq s + Z.of_nat (length bs) - 1 ≤ int4_max →
  Forall (λ resp, status resp = 201) (run (PostSale <$> bs) s).1 ∧
  products (run (PostSale <$> bs) s).2 = products s.
Proof.
  revert s. induction bs as [|b bs IH]; intros s Hacc Hfree Hmax.
  { by split; [constructor|]. }
  apply Forall_cons in Hacc as [(c&p&q&Hv&Hc&Hp) Hacc].
  rewrite fmap_cons, run_cons. simpl.
  pose proof (createSale_products b s) as Hprod.
  destruct (createSale_accepted b s c p q Hv Hc Hp)
    as [(Hle & Hnone & E)|([Hgt|Hused] & _)].
  - destruct (IH (createSale b s).2) as [Hall Hprod'].
    + eapply Forall_impl; [exact Hacc|].
      intros b' (c'&p'&q'&Hv'&Hc'&Hp'). exists c', p', q'.
      rewrite Hprod. split_and!; [done| |done].
      change (customers (createSale b s).2)
        with (customers (handle (PostSale b) s).2).
      by rewrite handle_customers.
    + rewrite E. intros k Hk. simpl in *.
      rewrite lookup_insert_ne by lia. apply Hfree. lia.
    + rewrite E. simpl. simpl in Hmax. lia.
    + split; [|by rewrite Hprod'].
      constructor; [by rewrite E|done].
  - simpl in Hmax. lia.
  - rewrite (Hfree (sales_sale_id_seq s)) in Hused by lia.
    by destruct Hused.
Qed.

(** C3, as the code has it.  Overlapping [createSale] calls are serialised by
    the database in some order [sched].  Whatever the order and whatever the
    stock, every call naming an existing customer and product is accepted
    (201): none answers Conflict, and the N accepted sales subtract nothing:
    the products table, stock included, is as before.  With 10 in stock, two
    overlapping sales of 6 both succeed and leave 10. *)
Theorem overlapping_sales_all_succeed_stock_unchanged
    (bs : list SaleBody) (s : Store) (sched : list Request) :
  Forall (sale_accepted s) bs → sale_ids_free s →
  sales_sale_id_seq s + Z.of_nat (length bs) - 1 ≤ int4_max →
  Permutation sched (PostSale <$> bs) →
  Forall (λ resp, status resp = 201) (run sched s).1 ∧
  products (run sched s).2 = products s.
Proof.
  intros Hacc Hfree Hmax Hperm.
  apply Permutation_map_inv in Hperm as (bs' & -> & Hbs).
  change (map PostSale bs') with (PostSale <$> bs').
  apply run_sales_all_created; [|done|].
  - by rewrite <- Hbs.
  - by rewrite <- Hbs.
Qed.

Lemma overlapping_sales_all_succeed_stock_unchanged_witness :
  Forall (sale_accepted (shop 10)) [sale_body 1 1 6; sale_body 1 1 6] ∧
  sale_ids_free (shop 10) ∧
  sales_sale_id_seq (shop 10) + 2 - 1 ≤ int4_max ∧
  Forall (λ resp, status resp = 201)
         (run [PostSale (sale_body 1 1 6); PostSale (sale_body 1 1 6)]
              (shop 10)).1 ∧
  products (run [PostSale (sale_body 1 1 6); PostSale (sale_body 1 1 6)]
                (shop 10)).2 = products (shop 10).
Proof.
  assert (Hacc : Forall (sale_accepted (shop 10))
                        [sale_body 1 1 6; sale_body 1 1 6]).
  { repeat constructor; exists 1, 1, 6; (split_and!; [reflexivity|by eexists..]). }
  assert (Hfree : sale_ids_free (shop 10)) by (intros k _; reflexivity).
  assert (Hmax : sales_sale_id_seq (shop 10) + 2 - 1 ≤ int4_max)
    by (vm_compute; discriminate).
  split_and!; [done..| |];
    apply (overlapping_sales_all_succeed_stock_unchanged
             [sale_body 1 1 6; sale_body 1 1 6] (shop 10)
             [PostSale (sale_body 1 1 6); PostSale (sale_body 1 1 6)]
             Hacc Hfree Hmax (Permutation_refl _)).
Defined.

(** ** A sale naming a missing product or customer *)

(** Product 99 and customer 99 do not exist; the answer is 500, not 404. *)
Lemma createSale_missing_contract_fails :
  products (shop 10) !! 99 = None ∧
  ¬ Spec.createSale_missing_contract (sale_body 1 99 2) (shop 10) ∧
  customers (shop 10) !! 99 = None ∧
  ¬ Spec.createSale_missing_contract (sale_body 99 1 2) (shop 10).
Proof.
  split_and!; [reflexivity| |reflexivity|]; intros [H _]; vm_compute in H; done.
Qed.

Lemma nullable_Some_inv {A B} (conv : A → Result B) a r :
  nullable conv (Some a) = Ok r → ∃ k, r = Some k ∧ conv a = Ok k.
Proof. simpl. destruct (conv a) as [k|e]; simpl; [|done]. intros. simplify_eq. eauto. Qed.

Lemma sale_values_inv cust prod qty c p q :
  sale_values cust prod qty = Ok (c, p, q) →
  nullable int4_of_number cust = Ok c ∧
  nullable int4_of_number prod = Ok p ∧
  nullable int4_of_number qty = Ok q.
Proof.
  unfold sale_values.
  destruct (nullable int4_of_number cust) as [c'|]; simpl; [|done].
  destruct (nullable int4_of_number prod) as [p'|]; simpl; [|done].
  destruct (nullable int4_of_number qty) as [q'|]; simpl; [|done].
  intros. by simplify_eq.
Qed.

Lemma names_missing_fk {R} (t : gmap Z R) ref r :
  names_missing t ref → nullable int4_of_number ref = Ok r → fk_holds t r = false.
Proof.
  intros (n & -> & Hn) (k & -> & Hk)%nullable_Some_inv. simpl.
  rewrite (Hn k Hk). apply bool_decide_eq_false. by intros [? ?].
Qed.

(** C5, as the code has it.  A [createSale] whose [product_id], or whose
    [customer_id], names no existing row is refused by the foreign key of the
    schema (or earlier, when a field does not bind): the answer is 500, never
    NotFound, and no row of any table is created, modified or deleted. *)
Theorem createSale_missing_reference_500 (b : SaleBody) (s : Store) :
  names_missing (products s) (b_product_id b) ∨
  names_missing (customers s) (b_customer_id b) →
  (createSale b s).1 = internal_server_error ∧
  ¬ NotFound (createSale b s).1 ∧
  same_rows s (createSale b s).2.
Proof.
  intros Hmiss.
  destruct (createSale_cases b s)
    as [(c&p&q&Hv&_&_&Hc&Hp&_)|(E&Hsame&_)].
  - apply sale_values_inv in Hv as (Hbc & Hbp & _).
    destruct Hmiss as [Hm|Hm].
    + rewrite (names_missing_fk _ _ _ Hm Hbp) in Hp. done.
    + rewrite (names_missing_fk _ _ _ Hm Hbc) in Hc. done.
  - split_and!; [done| |done]. unfold NotFound. by rewrite E.
Qed.

Lemma createSale_missing_reference_500_witness :
  names_missing (products (shop 10)) (b_product_id (sale_body 1 99 2)) ∧
  (createSale (sale_body 1 99 2) (shop 10)).1 = internal_server_error ∧
  same_rows (shop 10) (createSale (sale_body 1 99 2) (shop 10)).2.
Proof.
  assert (Hm : names_missing (products (shop 10)) (b_product_id (sale_body 1 99 2))).
  { exists (js_int 99). split; [reflexivity|].
    intros k Hk. vm_compute in Hk. by simplify_eq. }
  destruct (createSale_missing_reference_500 (sale_body 1 99 2) (shop 10)
              (or_introl Hm)) as (H1 & _ & H3).
  done.
Defined.

(** ** Identity and timestamp of a created sale *)

(** The created sale has a NULL timestamp. *)
Lemma sale_identity_and_timestamp_fails :
  status (createSale (sale_body 1 1 2) (shop 10)).1 = 201 ∧
  ¬ Spec.sale_identity_and_timestamp (createSale (sale_body 1 1 2) (shop 10)).1.
Proof.
  split; [reflexivity|]. intros (id & row & t & Hb & Ht).
  vm_compute in Hb. by simplify_eq.
Qed.

(** C8, as the code has it.  Every sale row produced by a successful
    [createSale] carries the identity drawn from the sales sequence, unused
    until then and not taken from the request, and a NULL timestamp: the
    statement names no timestamp and the column has no default.  The returned
    sale is the stored row. *)
Theorem created_sale_identity_null_timestamp (b : SaleBody) (s : Store) :
  status (createSale b s).1 = 201 →
  let id := sales_sale_id_seq s in
  ∃ row,
    body (createSale b s).1 = sale_json (id, row) ∧
    sales s !! id = None ∧
    sales (createSale b s).2 = <[id:=row]> (sales s) ∧
    sales_sale_id_seq (createSale b s).2 = id + 1 ∧
    timestamp row = None.
Proof.
  intros Hst.
  destruct (createSale_cases b s)
    as [(c&p&q&_&_&Hfree&_&_&E)|(E&_&_)].
  - simpl in E. rewrite E. simpl. eexists. split_and!; done.
  - rewrite E in Hst. done.
Qed.

Lemma created_sale_identity_null_timestamp_witness :
  status (createSale (sale_body 1 1 2) (shop 10)).1 = 201 ∧
  ∃ row,
    body (createSale (sale_body 1 1 2) (shop 10)).1 = sale_json (1, row) ∧
    sales (shop 10) !! 1 = None ∧
    sales (createSale (sale_body 1 1 2) (shop 10)).2 = <[1:=row]> (sales (shop 10)) ∧
    sales_sale_id_seq (createSale (sale_body 1 1 2) (shop 10)).2 = 1 + 1 ∧
    timestamp row = None.
Proof.
  split; [reflexivity|].
  apply (created_sale_identity_null_timestamp (sale_body 1 1 2) (shop 10)).
  reflexivity.
Defined.

(** ** Creating a product *)

(** A negative price, a missing price, an empty name and a missing category
    are each persisted. *)
Lemma createProduct_validation_contract_fails :
  ¬ Spec.createProduct_validation_contract
      (product_body (Some "Laptop") (Some (js_int (-5))) (Some "Electronics")
                    (Some (js_int 5))) empty_store ∧
  ¬ Spec.createProduct_validation_contract
      (product_body (Some "Laptop") None (Some "Electronics")
                    (Some (js_int 5))) empty_store ∧
  ¬ Spec.createProduct_validation_contract
      (product_body (Some "") (Some (js_int 1200)) (Some "Electronics")
                    (Some (js_int 5))) empty_store ∧
  ¬ Spec.createProduct_validation_contract
      (product_body (Some "Laptop") (Some (js_int 1200)) None
                    (Some (js_int 5))) empty_store.
Proof.
  split_and!; intros H; destruct H as [H _]; try reflexivity;
    vm_compute in H; done.
Qed.

Lemma varchar_fits n v : fits n (Some v) = true → varchar n v = Ok v.
Proof.
  unfold fits, varchar. intros [Hnul Hlen]%andb_prop.
  apply negb_true_iff in Hnul. by rewrite Hnul, Hlen.
Qed.

Lemma nullable_varchar_fits n v :
  fits n v = true → nullable (varchar n) v = Ok v.
Proof. destruct v as [v|]; [|done]. intros H. simpl. by rewrite varchar_fits. Qed.

Lemma nullable_varchar_inv n v r :
  nullable (varchar n) v = Ok r → fits n v = true → r = v.
Proof. intros H Hf. rewrite nullable_varchar_fits in H by done. by simplify_eq. Qed.

Lemma nullable_numeric_inv pr r :
  nullable numeric_10_2 pr = Ok r → r = cents <$> pr ∧ price_fits pr = true.
Proof.
  destruct pr as [n|]; simpl; [|by intros; simplify_eq].
  unfold numeric_10_2, cents. case_match; simpl; [|done].
  intros. by simplify_eq.
Qed.

Lemma nullable_numeric_fits pr :
  price_fits pr = true → nullable numeric_10_2 pr = Ok (cents <$> pr).
Proof.
  destruct pr as [n|]; simpl; [|done].
  unfold numeric_10_2, cents. by intros ->.
Qed.

Lemma product_values_inv name pr cat n p c :
  product_values name pr cat = Ok (n, p, c) →
  nullable (varchar 100) name = Ok n ∧
  nullable numeric_10_2 pr = Ok p ∧
  nullable (varchar 50) cat = Ok c.
Proof.
  unfold product_values.
  destruct (nullable (varchar 100) name) as [n'|]; simpl; [|done].
  destruct (nullable numeric_10_2 pr) as [p'|]; simpl; [|done].
  destruct (nullable (varchar 50) cat) as [c'|]; simpl; [|done].
  intros. by simplify_eq.
Qed.

Lemma product_values_fits name pr cat :
  fits 100 name = true → price_fits pr = true → fits 50 cat = true →
  product_values name pr cat = Ok (name, cents <$> pr, cat).
Proof.
  intros Hn Hp Hc. unfold product_values.
  rewrite nullable_varchar_fits by done. simpl.
  rewrite nullable_numeric_fits by done. simpl.
  by rewrite nullable_varchar_fits by done.
Qed.

(** C4, as the code has it.  [createProduct] validates nothing before it
    persists: it never answers ValidationError.  Whenever the columns accept
    the three values it sends (a name of at most 100 and a category of at most
    50 characters, or none; any price, negative included, of at most
    eight digits before the point once rounded, or none) and the identity
    drawn from the sequence is in range and unused, it answers 201 and stores
    exactly one new row, with NULL description and NULL stock, whatever
    [stock_quantity] the body carries.  Any answer other than 201 is 500, with
    no row created. *)
Theorem createProduct_persists_without_validation (b : ProductBody) (s : Store) :
  let id := products_product_id_seq s in
  let row := {| product_name := b_product_name b; price := cents <$> b_price b;
                category := b_category b; description := None;
                stock_quantity := None |} in
  ¬ ValidationError (createProduct b s).1 ∧
  (fits 100 (b_product_name b) = true → price_fits (b_price b) = true →
   fits 50 (b_category b) = true → id ≤ int4_max → products s !! id = None →
   createProduct b s = (json 201 (product_json (id, row)), product_inserted id row s)) ∧
  (status (createProduct b s).1 = 201 →
   ∃ row', body (createProduct b s).1 = product_json (id, row') ∧
           products s !! id = None ∧
           products (createProduct b s).2 = <[id:=row']> (products s)) ∧
  (status (createProduct b s).1 ≠ 201 →
   (createProduct b s).1 = internal_server_error ∧
   same_rows s (createProduct b s).2).
Proof.
  intros id row. unfold ValidationError.
  destruct (createProduct_cases b s)
    as [(n&p&c&Hv&Hle&Hfree&E)|(E&Hsame&Hwhy)].
  - simpl in E. split_and!.
    + by rewrite E.
    + intros Hn Hp Hc _ _.
      rewrite product_values_fits in Hv by done. simplify_eq. exact E.
    + intros _. rewrite E. simpl. eauto.
    + intros Hst. by rewrite E in Hst.
  - split_and!.
    + by rewrite E.
    + intros Hn Hp Hc Hle Hfree.
      destruct Hwhy as [Hgt|Hused].
      * eexists. by apply product_values_fits.
      * subst id. lia.
      * subst id. rewrite Hfree in Hused. by destruct Hused.
    + intros Hst. by rewrite E in Hst.
    + done.
Qed.

Lemma createProduct_persists_without_validation_witness :
  Spec.validateProduct
    (product_body (Some "") (Some (js_int (-5))) None (Some (js_int 5))) = false ∧
  createProduct
    (product_body (Some "") (Some (js_int (-5))) None (Some (js_int 5))) empty_store
  = (json 201 (product_json (1, {| product_name := Some ""%string;
                                   price := Some (-500); category := None;
                                   description := None;
                                   stock_quantity := None |})),
     product_inserted 1 {| product_name := Some ""%string;
                           price := Some (-500); category := None;
                           description := None; stock_quantity := None |}
                      empty_store) ∧
  fits 50 (Some euros30) = true ∧
  createProduct
    (product_body (Some "Laptop") (Some (js_int 1200)) (Some euros30) None)
    empty_store
  = (json 201 (product_json (1, {| product_name := Some "Laptop"%string;
                                   price := Some 120000;
                                   category := Some euros30;
                                   description := None;
                                   stock_quantity := None |})),
     product_inserted 1 {| product_name := Some "Laptop"%string;
                           price := Some 120000; category := Some euros30;
                           description := None; stock_quantity := None |}
                      empty_store).
Proof.
  split_and!; [reflexivity| |reflexivity|].
  - apply (proj1 (proj2 (createProduct_persists_without_validation
             (product_body (Some "") (Some (js_int (-5))) None (Some (js_int 5)))
             empty_store))); first [reflexivity | by vm_compute].
  - apply (proj1 (proj2 (createProduct_persists_without_validation
             (product_body (Some "Laptop") (Some (js_int 1200)) (Some euros30) None)
             empty_store))); first [reflexivity | by vm_compute].
Defined.

(** ** Round trip of a product *)

(** The spec's own example: the stock of 5 comes back NULL.  And a price of
    19.999 comes back as 20.00. *)
Lemma round_trip_contract_fails :
  ¬ Spec.round_trip_contract (laptop_body (js_int 1200) (Some (js_int 5))) empty_store ∧
  ¬ Spec.round_trip_contract (laptop_body {| mant := 19999; scale := 3 |} None) empty_store.
Proof.
  split; intros H.
  - edestruct H as (row' & Hget & _ & _ & _ & Hstock); [reflexivity|].
    vm_compute in Hget. simplify_eq. done.
  - edestruct H as (row' & Hget & _ & _ & Hprice & _); [reflexivity|].
    vm_compute in Hget. simplify_eq. done.
Qed.

Lemma round_half_away_exact a d : 0 < d → round_half_away (a * d) d = a.
Proof.
  intros Hd. unfold round_half_away.
  rewrite Z.abs_mul, (Z.abs_eq d) by lia.
  replace (2 * (Z.abs a * d) + d) with (Z.abs a * (2 * d) + d) by lia.
  rewrite Z.div_add_l by lia. rewrite Z.div_small by lia.
  rewrite Z.add_0_r. rewrite Z.sgn_mul, (Z.sgn_pos d) by lia.
  rewrite Z.mul_1_r. by destruct a.
Qed.

Lemma pow10_pos n : 0 < pow10 n.
Proof. unfold pow10. apply Z.pow_pos_nonneg; lia. Qed.

(** A number with at most two decimals is kept as it is. *)
Lemma cents_exact n :
  (scale n ≤ 2)%nat → cents n = mant n * pow10 (2 - scale n).
Proof.
  intros Hs. unfold cents.
  replace (mant n * 100) with (mant n * pow10 (2 - scale n) * pow10 (scale n)).
  - apply round_half_away_exact, pow10_pos.
  - rewrite <- Z.mul_assoc. f_equal. unfold pow10.
    rewrite <- Z.pow_add_r by lia.
    replace (Z.of_nat (2 - scale n) + Z.of_nat (scale n)) with 2 by lia. done.
Qed.

(** C7, as the code has it.  After a successful [createProduct], [getProduct]
    on the assigned identity returns the row created: the price sent, rounded
    to two decimals (kept exactly when it has at most two); the name and the
    category sent, when they fit their columns; and NULL for description and
    stock_quantity, whatever the body carried.  After a successful
    [updateProduct], [getProduct] returns the row with the new price (rounded
    likewise), the name and category sent, and the description and
    stock_quantity it had before. *)
Theorem product_round_trip (b : ProductBody) (s : Store) :
  (∀ id row s',
     1 ≤ products_product_id_seq s →
     createProduct b s = (json 201 (product_json (id, row)), s') →
     id = products_product_id_seq s ∧
     getProduct id s' = (json 200 (product_json (id, row)), s') ∧
     price row = cents <$> b_price b ∧
     (∀ n, b_price b = Some n → (scale n ≤ 2)%nat →
           price row = Some (mant n * pow10 (2 - scale n))) ∧
     (fits 100 (b_product_name b) = true → product_name row = b_product_name b) ∧
     (fits 50 (b_category b) = true → category row = b_category b) ∧
     description row = None ∧ stock_quantity row = None) ∧
  (∀ id id' row s',
     updateProduct id b s = (json 200 (product_json (id', row)), s') →
     id' = id ∧
     getProduct id s' = (json 200 (product_json (id, row)), s') ∧
     price row = cents <$> b_price b ∧
     (∀ n, b_price b = Some n → (scale n ≤ 2)%nat →
           price row = Some (mant n * pow10 (2 - scale n))) ∧
     (fits 100 (b_product_name b) = true → product_name row = b_product_name b) ∧
     (fits 50 (b_category b) = true → category row = b_category b) ∧
     ∃ old, products s !! id = Some old ∧
            description row = description old ∧
            stock_quantity row = stock_quantity old).
Proof.
  split.
  - intros id row s' Hseq Hc.
    destruct (createProduct_cases b s)
      as [(n&p&c&Hv&Hle&Hfree&E)|(E&_&_)].
    2: { rewrite Hc in E. done. }
    simpl in E. rewrite E in Hc. simplify_eq.
    apply product_values_inv in Hv as (Hn & Hp & Hcat).
    apply nullable_numeric_inv in Hp as [-> _].
    split_and!; try done.
    + unfold getProduct, select_product, row_of.
      rewrite int4_Ok; simpl.
      * by rewrite lookup_insert_eq.
      * unfold in_int4, int4_min. apply andb_true_intro. split; lia.
    + intros m -> Hs. simpl. by rewrite cents_exact.
    + intros Hf. by apply (nullable_varchar_inv 100).
    + intros Hf. by apply (nullable_varchar_inv 50).
  - intros id id' row s' Hu.
    destruct (product_update_binds_dec id b) as [[_ Hid]|Hb].
    2: { rewrite updateProduct_rejected in Hu by done. done. }
    destruct (updateProduct_cases id b s)
      as [E|[[_ E]|(old&n&p&c&Hk&Hv&E)]]; rewrite E in Hu; try done.
    simpl in Hu. simplify_eq.
    apply product_values_inv in Hv as (Hn & Hp & Hcat).
    apply nullable_numeric_inv in Hp as [-> _].
    split_and!; try done.
    + unfold getProduct, select_product, row_of.
      rewrite int4_Ok by done. simpl. by rewrite lookup_insert_eq.
    + intros m -> Hs. simpl. by rewrite cents_exact.
    + intros Hf. by apply (nullable_varchar_inv 100).
    + intros Hf. by apply (nullable_varchar_inv 50).
    + by exists old.
Qed.

Lemma product_round_trip_witness :
  1 ≤ products_product_id_seq empty_store ∧
  createProduct (laptop_body (js_int 1200) (Some (js_int 5))) empty_store
    = (json 201 (product_json (1, laptop None)),
       product_inserted 1 (laptop None) empty_store) ∧
  getProduct 1 (product_inserted 1 (laptop None) empty_store)
    = (json 200 (product_json (1, laptop None)),
       product_inserted 1 (laptop None) empty_store) ∧
  stock_quantity (laptop None) = None ∧
  fits 50 (Some euros30) = true ∧
  ∃ row s',
    createProduct
      (product_body (Some "Laptop") (Some (js_int 1200)) (Some euros30) None)
      empty_store = (json 201 (product_json (1, row)), s') ∧
    getProduct 1 s' = (json 200 (product_json (1, row)), s') ∧
    category row = Some euros30.
Proof.
  assert (Hseq : 1 ≤ products_product_id_seq empty_store) by done.
  assert (Hc : createProduct (laptop_body (js_int 1200) (Some (js_int 5))) empty_store
               = (json 201 (product_json (1, laptop None)),
                  product_inserted 1 (laptop None) empty_store)) by reflexivity.
  destruct (proj1 (product_round_trip
                     (laptop_body (js_int 1200) (Some (js_int 5))) empty_store)
                  1 (laptop None) _ Hseq Hc)
    as (_ & Hget & _ & _ & _ & _ & _ & Hstock).
  assert (Hf : fits 50 (Some euros30) = true) by reflexivity.
  split_and!; [done..|].
  eexists _, _. split; [reflexivity|].
  destruct (proj1 (product_round_trip
                     (product_body (Some "Laptop") (Some (js_int 1200))
                                   (Some euros30) None) empty_store)
                  1 _ _ Hseq eq_refl)
    as (_ & Hget' & _ & _ & _ & Hcat & _).
  split; [exact Hget'|exact (Hcat Hf)].
Defined.

(** ** Deleting a product *)

Lemma referenced_false {R} (col : R → option Z) k (t : gmap Z R) i r :
  referenced col k t = false → t !! i = Some r → col r ≠ Some k.
Proof.
  unfold referenced. intros Hn%bool_decide_eq_false Hi Hc.
  apply Hn. by exists i, r.
Qed.

Lemma referenced_true {R} (col : R → option Z) k (t : gmap Z R) i r :
  t !! i = Some r → col r = Some k → referenced col k t = true.
Proof.
  intros Hi Hc. unfold referenced. apply bool_decide_eq_true. by exists i, r.
Qed.

Lemma fk_holds_Some {R} (t : gmap Z R) k :
  fk_holds t (Some k) = true ↔ is_Some (t !! k).
Proof. simpl. apply bool_decide_eq_true. Qed.

Lemma deleteProduct_sales_reference id s :
  sales_reference_products s → sales_reference_products (deleteProduct id s).2.
Proof.
  intros Hinv.
  destruct (deleteProduct_cases id s) as [E|[[_ E]|(_&Href&E)]];
    rewrite E; simpl; [done..|].
  intros i r Hi. simpl in *.
  apply orb_false_elim in Href as [_ Href].
  pose proof (referenced_false _ _ _ _ _ Href Hi) as Hne.
  pose proof (Hinv i r Hi) as Hfk. simpl in Hfk.
  destruct (product_id r) as [p|]; [|done].
  apply fk_holds_Some. apply fk_holds_Some in Hfk.
  rewrite lookup_delete_ne by congruence. done.
Qed.

(** Product 3000000000 is not stored, yet the answer is 500, not 404. *)
Lemma deleteProduct_absent_contract_fails :
  products (shop 10) !! 3000000000 = None ∧
  ¬ Spec.deleteProduct_absent_contract 3000000000 (shop 10).
Proof.
  split; [reflexivity|]. intros H.
  specialize (H eq_refl). vm_compute in H. done.
Qed.

(** C6, as the code has it.  [deleteProduct] on an id within the 32-bit range
    of the key and with no matching row answers 404 and changes nothing; an
    id outside that range is refused with 500, nothing changed.  On a product
    still referred to by a sale the single policy is to reject: the schema's foreign key refuses the statement, the
    handler answers with an error (500, not 204) and the store is unchanged;
    a product no row refers to is removed (204).  So no execution of
    [deleteProduct] leaves a sale whose [product_id] names a deleted product:
    if every sale named a stored product before, every sale does after. *)
Theorem deleteProduct_never_orphans_a_sale (id : Z) (s : Store) :
  (in_int4 id = true → products s !! id = None →
   deleteProduct id s = (json 404 (error_json "Product not found"), s)) ∧
  (∀ k sale, is_Some (products s !! id) →
     sales s !! k = Some sale → product_id sale = Some id →
     deleteProduct id s = (internal_server_error, s)) ∧
  (in_int4 id = true → is_Some (products s !! id) →
   product_referenced id s = false →
   deleteProduct id s = (sendStatus 204, set_products (delete id) s)) ∧
  (sales_reference_products s → sales_reference_products (deleteProduct id s).2) ∧
  (in_int4 id = false → deleteProduct id s = (internal_server_error, s)).
Proof.
  split_and!; [| | | |apply deleteProduct_out_of_range].
  - apply deleteProduct_not_found.
  - intros k sale Hsome Hk Hp.
    destruct (in_int4 id) eqn:Hid; [|by apply deleteProduct_out_of_range].
    apply deleteProduct_referenced; [done..|].
    unfold product_referenced.
    rewrite (referenced_true product_id id (sales s) k sale Hk Hp).
    apply orb_true_r.
  - apply deleteProduct_deleted.
  - apply deleteProduct_sales_reference.
Qed.

Lemma deleteProduct_never_orphans_a_sale_witness :
  is_Some (products shop_after_sale !! 1) ∧
  (∃ sale, sales shop_after_sale !! 1 = Some sale ∧ product_id sale = Some 1) ∧
  deleteProduct 1 shop_after_sale = (internal_server_error, shop_after_sale) ∧
  in_int4 7 = true ∧ products shop_after_sale !! 7 = None ∧
  deleteProduct 7 shop_after_sale
    = (json 404 (error_json "Product not found"), shop_after_sale) ∧
  in_int4 3000000000 = false ∧
  deleteProduct 3000000000 shop_after_sale
    = (internal_server_error, shop_after_sale).
Proof.
  pose proof (deleteProduct_never_orphans_a_sale 1 shop_after_sale) as (_ & H1 & _).
  pose proof (deleteProduct_never_orphans_a_sale 7 shop_after_sale) as (H7 & _).
  pose proof (deleteProduct_never_orphans_a_sale 3000000000 shop_after_sale)
    as (_ & _ & _ & _ & H3).
  assert (Hp : is_Some (products shop_after_sale !! 1)) by (by eexists).
  assert (Hs : sales shop_after_sale !! 1
               = Some {| customer_id := Some 1; product_id := Some 1;
                         quantity := Some 6; timestamp := None |})
    by reflexivity.
  split_and!; [done|by eexists| |reflexivity|reflexivity| |reflexivity|].
  - exact (H1 1 _ Hp Hs eq_refl).
  - exact (H7 eq_refl eq_refl).
  - exact (H3 eq_refl).
Defined.

(** The references of sales to products hold along every run: the schema
    enforces them at each statement. *)
Lemma handle_sales_reference r s :
  sales_reference_products s → sales_reference_products (handle r s).2.
Proof.
  intros Hinv.
  destruct r as [|k|b|k b|k| |k|b|k b|k]; simpl.
  - done.
  - by destruct (getProduct_cases k s) as [E|[[_ E]|(p0&_&E)]]; rewrite E.
  - destruct (createProduct_cases b s) as [(n&pr&c&_&_&Hfree&E)|(_&Hsame&_)].
    + simpl in E. rewrite E. intros i r Hi. simpl in *.
      pose proof (Hinv i r Hi) as Hfk. simpl in Hfk.
      destruct (product_id r) as [p|]; [|done].
      apply fk_holds_Some. apply fk_holds_Some in Hfk.
      rewrite lookup_insert_ne; [done|]. intros <-.
      rewrite Hfree in Hfk. by destruct Hfk.
    + destruct Hsame as (_&Hp&_&_&_&Hs). intros i r.
      rewrite Hs, Hp. apply Hinv.
  - destruct (updateProduct_cases k b s) as [E|[[_ E]|(old&n&pr&c&Hk&_&E)]];
      rewrite E; [done..|].
    intros i r Hi. simpl in *.
    pose proof (Hinv i r Hi) as Hfk. simpl in Hfk.
    destruct (product_id r) as [p|]; [|done].
    apply fk_holds_Some. apply fk_holds_Some in Hfk.
    destruct (decide (k = p)) as [->|Hne].
    + rewrite lookup_insert_eq. by eexists.
    + by rewrite lookup_insert_ne.
  - by apply deleteProduct_sales_reference.
  - done.
  - by destruct (getSale_cases k s) as [E|[[_ E]|(r0&_&E)]]; rewrite E.
  - destruct (createSale_cases b s) as [(c&p&q&_&_&_&_&Hp&E)|(_&Hsame&_)].
    + simpl in E. rewrite E. intros i r. simpl.
      intros [[<- <-]|[_ Hi]]%lookup_insert_Some; [done|]. by apply (Hinv i).
    + destruct Hsame as (_&Hp&_&_&_&Hs). intros i r.
      rewrite Hs, Hp. apply Hinv.
  - destruct (updateSale_cases k b s)
      as [E|[[_ E]|(old&c&p&q&Hk&_&_&Hp&E)]]; rewrite E; [done..|].
    intros i r. simpl.
    intros [[<- <-]|[_ Hi]]%lookup_insert_Some; [|by apply (Hinv i)].
    simpl. unfold fk_holds_upd in Hp.
    apply orb_prop in Hp as [Heq%bool_decide_eq_true|Hp]; [|done].
    rewrite <- Heq. by apply (Hinv k old).
  - destruct (deleteSale_cases k s) as [E|[E|E]]; rewrite E; [done..|].
    intros i r. simpl. intros [_ Hi]%lookup_delete_Some. by apply (Hinv i).
Qed.

Lemma run_sales_reference rs s :
  sales_reference_products s → sales_reference_products (run rs s).2.
Proof.
  revert s. induction rs as [|r rs IH]; intros s Hinv; [done|].
  rewrite run_cons. simpl. by apply IH, handle_sales_reference.
Qed.

(** * Further properties of the handlers *)

(** ** Reading *)

Lemma handle_read r s : is_read r = true → (handle r s).2 = s.
Proof.
  destruct r as [|k|b|k b|k| |k|b|k b|k]; try done; intros _; simpl.
  - by destruct (getProduct_cases k s) as [E|[[_ E]|(p0&_&E)]]; rewrite E.
  - by destruct (getSale_cases k s) as [E|[[_ E]|(r0&_&E)]]; rewrite E.
Qed.

Lemma run_reads rs s : Forall (λ r, is_read r = true) rs → (run rs s).2 = s.
Proof.
  revert s. induction rs as [|r rs IH]; intros s Hrs; [done|].
  apply Forall_cons in Hrs as [Hr Hrs].
  rewrite run_cons. simpl. rewrite (handle_read r s Hr). by apply IH.
Qed.

(** X1.  The GET routes are safe: any sequence of reads leaves the whole
    store, sequences included, as it was, so a request answered after the
    reads is answered exactly as it would have been before them. *)
Theorem reads_leave_store (rs : list Request) (r : Request) (s : Store) :
  Forall (λ r, is_read r = true) rs →
  (run rs s).2 = s ∧ handle r (run rs s).2 = handle r s.
Proof.
  intros Hrs. rewrite (run_reads rs s Hrs). done.
Qed.

Lemma reads_leave_store_witness :
  Forall (λ r, is_read r = true) [GetProducts; GetSale 3; GetProduct 1; GetSales] ∧
  (run [GetProducts; GetSale 3; GetProduct 1; GetSales] (shop 10)).2 = shop 10.
Proof.
  assert (H : Forall (λ r, is_read r = true)
                     [GetProducts; GetSale 3; GetProduct 1; GetSales])
    by (repeat constructor).
  split; [exact H|].
  exact (proj1 (reads_leave_store _ GetProducts (shop 10) H)).
Defined.

(** X2.  [listProducts] and [listSales] answer 200 with exactly the stored
    rows: a row is listed if and only if it is stored under that identity, no
    identity is listed twice, and there are as many rows as the table
    holds. *)
Theorem lists_show_exactly_the_stored_rows (s : Store) :
  (∃ rows, listProducts s = (json 200 (products_json rows), s) ∧
           NoDup rows.*1 ∧ length rows = size (products s) ∧
           ∀ id row, (id, row) ∈ rows ↔ products s !! id = Some row) ∧
  (∃ rows, listSales s = (json 200 (sales_json rows), s) ∧
           NoDup rows.*1 ∧ length rows = size (sales s) ∧
           ∀ id row, (id, row) ∈ rows ↔ sales s !! id = Some row).
Proof.
  split.
  - exists (map_to_list (products s)). split_and!.
    + reflexivity.
    + apply NoDup_fst_map_to_list.
    + apply length_map_to_list.
    + intros id row. apply elem_of_map_to_list.
  - exists (map_to_list (sales s)). split_and!.
    + reflexivity.
    + apply NoDup_fst_map_to_list.
    + apply length_map_to_list.
    + intros id row. apply elem_of_map_to_list.
Qed.

(** ** Answers and what they tell about the store *)




(** ** What a request can do to the tables *)

(** The row written by an update passed the foreign-key test, or kept the
    reference of the row it replaces. *)
Lemma handle_effect r s :
  let s' := (handle r s).2 in
  customers s' = customers s ∧ orders s' = orders s ∧
  order_items s' = order_items s ∧ payments s' = payments s ∧
  ((products s' = products s ∧ sales s' = sales s) ∨
   (∃ k row, products s' = <[k:=row]> (products s) ∧ sales s' = sales s) ∨
   (∃ k, product_referenced k s = false ∧
         products s' = delete k (products s) ∧ sales s' = sales s) ∨
   (∃ k row, sales s' = <[k:=row]> (sales s) ∧ products s' = products s ∧
      (fk_holds (customers s) (customer_id row) = true ∨
       ∃ old, sales s !! k = Some old ∧ customer_id old = customer_id row) ∧
      (fk_holds (products s) (product_id row) = true ∨
       ∃ old, sales s !! k = Some old ∧ product_id old = product_id row)) ∨
   (∃ k, sales s' = delete k (sales s) ∧ products s' = products s)).
Proof.
  intros s'. subst s'.
  rewrite handle_customers, handle_orders, handle_order_items, handle_payments.
  split_and!; [done..|].
  destruct r as [|k|b|k b|k| |k|b|k b|k]; simpl.
  - by left.
  - left. by destruct (getProduct_cases k s) as [E|[[_ E]|(p0&_&E)]]; rewrite E.
  - destruct (createProduct_cases b s) as [(n&pr&c&_&_&_&E)|(_&Hsame&_)].
    + simpl in E. rewrite E. right; left. simpl. eauto.
    + left. by destruct Hsame as (_&?&_&_&_&?).
  - destruct (updateProduct_cases k b s) as [E|[[_ E]|(old&n&pr&c&_&_&E)]];
      rewrite E; simpl; [by left..|].
    right; left. eauto.
  - destruct (deleteProduct_cases k s) as [E|[[_ E]|(_&Href&E)]];
      rewrite E; simpl; [by left..|].
    do 2 right; left. eauto.
  - by left.
  - left. by destruct (getSale_cases k s) as [E|[[_ E]|(r0&_&E)]]; rewrite E.
  - destruct (createSale_cases b s) as [(c&p&q&_&_&_&Hc&Hp&E)|(_&Hsame&_)].
    + simpl in E. rewrite E. do 3 right; left. simpl.
      eexists _, _. split_and!; [done..|by left|by left].
    + left. by destruct Hsame as (_&?&_&_&_&?).
  - destruct (updateSale_cases k b s)
      as [E|[[_ E]|(old&c&p&q&Hk&_&Hc&Hp&E)]]; rewrite E; simpl; [by left..|].
    do 3 right; left. eexists _, _. split_and!; [done..| |]; simpl.
    + unfold fk_holds_upd in Hc.
      apply orb_prop in Hc as [Heq%bool_decide_eq_true|Hc]; eauto.
    + unfold fk_holds_upd in Hp.
      apply orb_prop in Hp as [Heq%bool_decide_eq_true|Hp]; eauto.
  - destruct (deleteSale_cases k s) as [E|[E|E]]; rewrite E; simpl; [by left..|].
    do 4 right. eauto.
Qed.

(** X4.  No request, and so no run of requests, creates, modifies or deletes
    a row of [customers], [orders], [order_items] or [payments]: the handlers
    write to [products] and [sales] only. *)
Theorem other_tables_never_written (rs : list Request) (s : Store) :
  customers (run rs s).2 = customers s ∧ orders (run rs s).2 = orders s ∧
  order_items (run rs s).2 = order_items s ∧ payments (run rs s).2 = payments s.
Proof.
  revert s. induction rs as [|r rs IH]; intros s; [done|].
  rewrite run_cons. simpl.
  destruct (IH (handle r s).2) as (-> & -> & -> & ->).
  by rewrite handle_customers, handle_orders, handle_order_items, handle_payments.
Qed.

Lemma fk_holds_insert {R} (t : gmap Z R) k row ref :
  fk_holds t ref = true → fk_holds (<[k:=row]> t) ref = true.
Proof.
  destruct ref as [p|]; [|done]. rewrite !fk_holds_Some.
  intros Hp. destruct (decide (k = p)) as [->|Hne].
  - rewrite lookup_insert_eq. by eexists.
  - by rewrite lookup_insert_ne.
Qed.

Lemma fk_holds_delete {R} (t : gmap Z R) k ref :
  ref ≠ Some k → fk_holds t ref = true → fk_holds (delete k t) ref = true.
Proof.
  destruct ref as [p|]; [|done]. rewrite !fk_holds_Some.
  intros Hne Hp. rewrite lookup_delete_ne by congruence. done.
Qed.

Lemma product_referenced_false k s :
  product_referenced k s = false →
  referenced order_product_id k (orders s) = false ∧
  referenced item_product_id k (order_items s) = false ∧
  referenced product_id k (sales s) = false.
Proof.
  unfold product_referenced.
  intros [[? ?]%orb_false_elim ?]%orb_false_elim. done.
Qed.

Lemma handle_foreign_keys r s :
  foreign_keys_hold s → foreign_keys_hold (handle r s).2.
Proof.
  intros (Ho & Hi & Hp & Hs).
  destruct (handle_effect r s) as (Ec & Eo & Ei & Epay & Hcases).
  unfold foreign_keys_hold. rewrite Ec, Eo, Ei, Epay.
  destruct Hcases
    as [[Ep Es]|[(k&row&Ep&Es)|[(k&Href&Ep&Es)|[(k&row&Es&Ep&Hc&Hpr)|(k&Es&Ep)]]]];
    rewrite Ep, Es.
  - done.
  - split_and!; [| |done|].
    + intros i r0 Hi0. destruct (Ho i r0 Hi0). split; [done|by apply fk_holds_insert].
    + intros i r0 Hi0. destruct (Hi i r0 Hi0). split; [done|by apply fk_holds_insert].
    + intros i r0 Hi0. destruct (Hs i r0 Hi0). split; [done|by apply fk_holds_insert].
  - apply product_referenced_false in Href as (Hro & Hri & Hrs).
    split_and!; [| |done|].
    + intros i r0 Hi0. destruct (Ho i r0 Hi0). split; [done|].
      apply fk_holds_delete; [|done]. by eapply referenced_false.
    + intros i r0 Hi0. destruct (Hi i r0 Hi0). split; [done|].
      apply fk_holds_delete; [|done]. by eapply referenced_false.
    + intros i r0 Hi0. destruct (Hs i r0 Hi0). split; [done|].
      apply fk_holds_delete; [|done]. by eapply referenced_false.
  - split_and!; [done..|].
    intros i r0 [[<- <-]|[_ Hi0]]%lookup_insert_Some; [|by apply (Hs i)].
    split.
    + destruct Hc as [?|(old&Hold&<-)]; [done|]. by destruct (Hs k old Hold).
    + destruct Hpr as [?|(old&Hold&<-)]; [done|]. by destruct (Hs k old Hold).
  - split_and!; [done..|].
    intros i r0 [_ Hi0]%lookup_delete_Some. by apply (Hs i).
Qed.

Lemma empty_store_foreign_keys : foreign_keys_hold empty_store.
Proof. unfold foreign_keys_hold. simpl. split_and!; apply map_Forall_empty. Qed.

(** X5.  The store never leaves the schema's referential constraints: if
    every [REFERENCES] clause of [SHOPEASE.sql] holds before a run of
    requests (as in the freshly created database), every one holds after it.
    No sale, order or order item ever names a customer, product or order that
    is not stored. *)
Theorem foreign_keys_hold_along_runs (rs : list Request) (s : Store) :
  foreign_keys_hold s → foreign_keys_hold (run rs s).2.
Proof.
  revert s. induction rs as [|r rs IH]; intros s Hinv; [done|].
  rewrite run_cons. simpl. by apply IH, handle_foreign_keys.
Qed.

Lemma foreign_keys_hold_along_runs_witness :
  foreign_keys_hold empty_store ∧
  foreign_keys_hold
    (run [PostProduct (laptop_body (js_int 1200) None);
          PostSale {| b_customer_id := None; b_product_id := Some (js_int 1);
                      b_quantity := Some (js_int 2) |};
          DeleteProduct 1; PutSale 1 (sale_body 1 1 3)] empty_store).2.
Proof.
  split; [exact empty_store_foreign_keys|].
  apply foreign_keys_hold_along_runs. exact empty_store_foreign_keys.
Defined.

(** ** Identities *)

Lemma handle_seq_mono r s :
  products_product_id_seq s ≤ products_product_id_seq (handle r s).2 ∧
  sales_sale_id_seq s ≤ sales_sale_id_seq (handle r s).2.
Proof. destruct r; crush_handler; lia. Qed.

Lemma run_seq_mono rs s :
  products_product_id_seq s ≤ products_product_id_seq (run rs s).2 ∧
  sales_sale_id_seq s ≤ sales_sale_id_seq (run rs s).2.
Proof.
  revert s. induction rs as [|r rs IH]; intros s; [done|].
  rewrite run_cons. simpl.
  destruct (handle_seq_mono r s), (IH (handle r s).2). lia.
Qed.

(** X6.  Identities are handed out in strictly increasing order and never
    again: a product (a sale) created after another one, whatever requests
    ran in between, deletions included, carries a strictly greater
    identity. *)
Theorem identities_strictly_increase (rs : list Request) (s : Store) :
  (∀ b1 b2 id1 row1 s1 id2 row2 s2,
     createProduct b1 s = (json 201 (product_json (id1, row1)), s1) →
     createProduct b2 (run rs s1).2 = (json 201 (product_json (id2, row2)), s2) →
     id1 < id2) ∧
  (∀ b1 b2 id1 row1 s1 id2 row2 s2,
     createSale b1 s = (json 201 (sale_json (id1, row1)), s1) →
     createSale b2 (run rs s1).2 = (json 201 (sale_json (id2, row2)), s2) →
     id1 < id2).
Proof.
  split; intros b1 b2 id1 row1 s1 id2 row2 s2 H1 H2.
  - assert (Hs1 : products_product_id_seq s1 = id1 + 1).
    { destruct (createProduct_cases b1 s) as [(?&?&?&_&_&_&E)|(E&_&_)];
        [|by rewrite H1 in E].
      simpl in E. rewrite E in H1. by simplify_eq. }
    assert (Hid2 : id2 = products_product_id_seq (run rs s1).2).
    { destruct (createProduct_cases b2 (run rs s1).2)
        as [(?&?&?&_&_&_&E)|(E&_&_)]; [|by rewrite H2 in E].
      simpl in E. rewrite E in H2. by simplify_eq. }
    destruct (run_seq_mono rs s1) as [Hm _]. lia.
  - assert (Hs1 : sales_sale_id_seq s1 = id1 + 1).
    { destruct (createSale_cases b1 s) as [(?&?&?&_&_&_&_&_&E)|(E&_&_)];
        [|by rewrite H1 in E].
      simpl in E. rewrite E in H1. by simplify_eq. }
    assert (Hid2 : id2 = sales_sale_id_seq (run rs s1).2).
    { destruct (createSale_cases b2 (run rs s1).2)
        as [(?&?&?&_&_&_&_&_&E)|(E&_&_)]; [|by rewrite H2 in E].
      simpl in E. rewrite E in H2. by simplify_eq. }
    destruct (run_seq_mono rs s1) as [_ Hm]. lia.
Qed.

Lemma identities_strictly_increase_witness :
  createSale (sale_body 1 1 6) (shop 10)
    = (json 201 (sale_json (1, {| customer_id := Some 1; product_id := Some 1;
                                  quantity := Some 6; timestamp := None |})),
       shop_after_sale) ∧
  createSale (sale_body 1 1 2) (run [DeleteSale 1] shop_after_sale).2
    = (json 201 (sale_json (2, {| customer_id := Some 1; product_id := Some 1;
                                  quantity := Some 2; timestamp := None |})),
       (createSale (sale_body 1 1 2) (run [DeleteSale 1] shop_after_sale).2).2) ∧
  1 < 2.
Proof.
  assert (H1 : createSale (sale_body 1 1 6) (shop 10)
    = (json 201 (sale_json (1, {| customer_id := Some 1; product_id := Some 1;
                                  quantity := Some 6; timestamp := None |})),
       shop_after_sale)) by reflexivity.
  assert (H2 : createSale (sale_body 1 1 2) (run [DeleteSale 1] shop_after_sale).2
    = (json 201 (sale_json (2, {| customer_id := Some 1; product_id := Some 1;
                                  quantity := Some 2; timestamp := None |})),
       (createSale (sale_body 1 1 2) (run [DeleteSale 1] shop_after_sale).2).2))
    by reflexivity.
  split_and!; [exact H1|exact H2|].
  exact (proj2 (identities_strictly_increase [DeleteSale 1] (shop 10))
           _ _ _ _ _ _ _ _ H1 H2).
Defined.

Lemma handle_new_keys r s :
  (∀ k p, products (handle r s).2 !! k = Some p →
     is_Some (products s !! k) ∨
     (k = products_product_id_seq s ∧
      products_product_id_seq (handle r s).2 = k + 1)) ∧
  (∀ k x, sales (handle r s).2 !! k = Some x →
     is_Some (sales s !! k) ∨
     (k = sales_sale_id_seq s ∧ sales_sale_id_seq (handle r s).2 = k + 1)).
Proof.
  destruct r as [|k0|b|k0 b|k0| |k0|b|k0 b|k0]; simpl.
  - split; intros; left; by eexists.
  - destruct (getProduct_cases k0 s) as [E|[[_ E]|(p0&_&E)]]; rewrite E;
      split; intros; left; by eexists.
  - destruct (createProduct_cases b s) as [(n&pr&c&_&_&_&E)|(_&Hsame&_)].
    + simpl in E. rewrite E. simpl. split.
      * intros k p [[<- <-]|[_ Hk]]%lookup_insert_Some; [by right|left; by eexists].
      * intros; left; by eexists.
    + destruct Hsame as (_&Hp&_&_&_&Hs). rewrite Hp, Hs.
      split; intros; left; by eexists.
  - destruct (updateProduct_cases k0 b s) as [E|[[_ E]|(old&n&pr&c&Hk0&_&E)]];
      rewrite E; simpl; [split; intros; left; by eexists..|].
    split; [|intros; left; by eexists].
    intros k p [[<- <-]|[_ Hk]]%lookup_insert_Some; left; by eexists.
  - destruct (deleteProduct_cases k0 s) as [E|[[_ E]|(_&_&E)]];
      rewrite E; simpl; [split; intros; left; by eexists..|].
    split; [|intros; left; by eexists].
    intros k p [_ Hk]%lookup_delete_Some. left; by eexists.
  - split; intros; left; by eexists.
  - destruct (getSale_cases k0 s) as [E|[[_ E]|(r0&_&E)]]; rewrite E;
      split; intros; left; by eexists.
  - destruct (createSale_cases b s) as [(c&p&q&_&_&_&_&_&E)|(_&Hsame&_)].
    + simpl in E. rewrite E. simpl. split.
      * intros; left; by eexists.
      * intros k x [[<- <-]|[_ Hk]]%lookup_insert_Some; [by right|left; by eexists].
    + destruct Hsame as (_&Hp&_&_&_&Hs). rewrite Hp, Hs.
      split; intros; left; by eexists.
  - destruct (updateSale_cases k0 b s)
      as [E|[[_ E]|(old&c&p&q&Hk0&_&_&_&E)]];
      rewrite E; simpl; [split; intros; left; by eexists..|].
    split; [intros; left; by eexists|].
    intros k x [[<- <-]|[_ Hk]]%lookup_insert_Some; left; by eexists.
  - destruct (deleteSale_cases k0 s) as [E|[E|E]];
      rewrite E; simpl; [split; intros; left; by eexists..|].
    split; [intros; left; by eexists|].
    intros k x [_ Hk]%lookup_delete_Some. left; by eexists.
Qed.

Lemma handle_ids_free r s : ids_free s → ids_free (handle r s).2.
Proof.
  intros [Hp Hs].
  destruct (handle_new_keys r s) as [Hkp Hks].
  destruct (handle_seq_mono r s) as [Hmp Hms].
  split; intros k Hk.
  - destruct (products (handle r s).2 !! k) as [p|] eqn:Hl; [|done].
    destruct (Hkp k p Hl) as [[? Hsome]|[-> Hseq]]; [|lia].
    rewrite Hp in Hsome by lia. done.
  - destruct (sales (handle r s).2 !! k) as [x|] eqn:Hl; [|done].
    destruct (Hks k x Hl) as [[? Hsome]|[-> Hseq]]; [|lia].
    rewrite Hs in Hsome by lia. done.
Qed.

Lemma run_ids_free rs s : ids_free s → ids_free (run rs s).2.
Proof.
  revert s. induction rs as [|r rs IH]; intros s Hinv; [done|].
  rewrite run_cons. simpl. by apply IH, handle_ids_free.
Qed.

Lemma empty_store_ids_free : ids_free empty_store.
Proof. split; intros k _; apply lookup_empty. Qed.

Lemma product_values_Err name pr cat e :
  product_values name pr cat = Err e → e ≠ unique_violation.
Proof.
  unfold product_values, nullable, varchar, numeric_10_2, mbind, Result_bind.
  repeat case_match; intros; simplify_eq; done.
Qed.

Lemma sale_values_Err cust prod qty e :
  sale_values cust prod qty = Err e → e ≠ unique_violation.
Proof.
  unfold sale_values, nullable, int4_of_number, int4, mbind, Result_bind.
  repeat case_match; intros; simplify_eq; done.
Qed.

(** X7.  An INSERT never meets a duplicate key.  If no identity still to be
    handed out is in use (as in the freshly created database), this remains
    so after every run of requests, and there neither INSERT statement can
    fail on the primary key, whatever its parameters. *)
Theorem inserts_never_collide (rs : list Request) (s : Store) :
  ids_free s →
  ids_free (run rs s).2 ∧
  (∀ name pr cat,
     (insert_product name pr cat (run rs s).2).1 ≠ Err unique_violation) ∧
  (∀ cust prod qty,
     (insert_sale cust prod qty (run rs s).2).1 ≠ Err unique_violation).
Proof.
  intros H0. pose proof (run_ids_free rs s H0) as [Hp Hs].
  split_and!; [done| |].
  - intros name pr cat. unfold insert_product, nextval_products.
    destruct (product_values name pr cat) as [[[n p] c]|e] eqn:Hv; simpl.
    + destruct (Z.leb_spec (products_product_id_seq (run rs s).2) int4_max);
        simpl; [|done].
      by rewrite Hp by lia.
    + intros [= ->]. by apply product_values_Err in Hv.
  - intros cust prod qty. unfold insert_sale, nextval_sales.
    destruct (sale_values cust prod qty) as [[[c p] q]|e] eqn:Hv; simpl.
    + destruct (Z.leb_spec (sales_sale_id_seq (run rs s).2) int4_max);
        simpl; [|done].
      rewrite Hs by lia. by case_match.
    + intros [= ->]. by apply sale_values_Err in Hv.
Qed.

Lemma inserts_never_collide_witness :
  ids_free empty_store ∧
  ids_free (run [PostProduct (laptop_body (js_int 1200) None); DeleteProduct 1;
                 PostProduct (laptop_body (js_int 999) None)] empty_store).2.
Proof.
  split; [exact empty_store_ids_free|].
  exact (proj1 (inserts_never_collide _ empty_store empty_store_ids_free)).
Defined.

(** ** Column types *)

Lemma char_length_take_chars n cs : (char_length (take_chars n cs) ≤ n)%nat.
Proof.
  revert n. induction cs as [|c cs IH]; intros n; simpl; [lia|].
  destruct (is_continuation c) eqn:Hc; simpl.
  - rewrite Hc. apply IH.
  - destruct n as [|n]; simpl; [lia|]. rewrite Hc. specialize (IH n). lia.
Qed.

Lemma existsb_take_chars (f : ascii → bool) n cs :
  existsb f cs = false → existsb f (take_chars n cs) = false.
Proof.
  revert n. induction cs as [|c cs IH]; intros n; simpl; [done|].
  intros [Hc Hcs]%orb_false_elim.
  destruct (is_continuation c); simpl.
  - rewrite Hc. by apply IH.
  - destruct n as [|n]; simpl; [done|]. rewrite Hc. by apply IH.
Qed.

Lemma take_drop_chars n cs : take_chars n cs ++ drop_chars n cs = cs.
Proof.
  revert n. induction cs as [|c cs IH]; intros n; simpl; [done|].
  destruct (is_continuation c); simpl.
  - by rewrite IH.
  - destruct n as [|n]; simpl; [done|]. by rewrite IH.
Qed.

Lemma varchar_within n v v' : varchar n v = Ok v' → text_within n (Some v').
Proof.
  unfold varchar. intros H t [= <-].
  destruct (existsb is_nul (list_ascii_of_string v)) eqn:Hnul; [done|].
  destruct (char_length (list_ascii_of_string v) <=? n)%nat eqn:Hlen.
  - simplify_eq. split; [by apply Nat.leb_le|done].
  - destruct (forallb is_space (drop_chars n (list_ascii_of_string v))); [|done].
    simplify_eq. rewrite list_ascii_of_string_of_list_ascii. split.
    + apply char_length_take_chars.
    + by apply existsb_take_chars.
Qed.

Lemma nullable_varchar_within n v r :
  nullable (varchar n) v = Ok r → text_within n r.
Proof.
  destruct v as [v|]; simpl.
  - destruct (varchar n v) as [v'|] eqn:Hv; simpl; [|done].
    intros [= <-]. by eapply varchar_within.
  - intros [= <-] t Ht. done.
Qed.

Lemma nullable_numeric_within pr r :
  nullable numeric_10_2 pr = Ok r → numeric_within r.
Proof.
  destruct pr as [n|]; simpl.
  - unfold numeric_10_2.
    destruct (Z.ltb_spec (Z.abs (round_half_away (mant n * 100) (pow10 (scale n))))
                         (10 ^ 10)); simpl; [|done].
    intros [= <-] c [= <-]. done.
  - intros [= <-] c Hc. done.
Qed.

Lemma nullable_int4_within v r :
  nullable int4_of_number v = Ok r → int4_within r.
Proof.
  destruct v as [n|]; simpl.
  - unfold int4_of_number, int4. repeat case_match; simpl; try done.
    intros [= <-] z [= <-]. done.
  - intros [= <-] z Hz. done.
Qed.

Lemma handle_rows_typed r s :
  (∀ k p, products (handle r s).2 !! k = Some p →
     (∃ p0, products s !! k = Some p0 ∧ p = p0) ∨
     (text_within 100 (product_name p) ∧ numeric_within (price p) ∧
      text_within 50 (category p))) ∧
  (∀ k x, sales (handle r s).2 !! k = Some x →
     (∃ x0, sales s !! k = Some x0 ∧ x = x0) ∨
     (int4_within (customer_id x) ∧ int4_within (product_id x) ∧
      int4_within (quantity x))).
Proof.
  destruct r as [|k0|b|k0 b|k0| |k0|b|k0 b|k0]; simpl.
  - split; intros; left; eauto.
  - destruct (getProduct_cases k0 s) as [E|[[_ E]|(p0&_&E)]]; rewrite E;
      split; intros; left; eauto.
  - destruct (createProduct_cases b s) as [(n&pr&c&Hv&_&_&E)|(_&Hsame&_)].
    + simpl in E. rewrite E. simpl. split; [|intros; left; eauto].
      intros k p [[<- <-]|[_ Hk]]%lookup_insert_Some; [right|left; eauto].
      apply product_values_inv in Hv as (Hn & Hp & Hc). simpl.
      split_and!; [by eapply nullable_varchar_within
                  |by eapply nullable_numeric_within
                  |by eapply nullable_varchar_within].
    + destruct Hsame as (_&Hp&_&_&_&Hs). rewrite Hp, Hs.
      split; intros; left; eauto.
  - destruct (updateProduct_cases k0 b s) as [E|[[_ E]|(old&n&pr&c&Hk0&Hv&E)]];
      rewrite E; simpl; [split; intros; left; eauto..|].
    split; [|intros; left; eauto].
    intros k p [[<- <-]|[_ Hk]]%lookup_insert_Some; [right|left; eauto].
    apply product_values_inv in Hv as (Hn & Hp & Hc). simpl.
    split_and!; [by eapply nullable_varchar_within
                |by eapply nullable_numeric_within
                |by eapply nullable_varchar_within].
  - destruct (deleteProduct_cases k0 s) as [E|[[_ E]|(_&_&E)]];
      rewrite E; simpl; [split; intros; left; eauto..|].
    split; [|intros; left; eauto].
    intros k p [_ Hk]%lookup_delete_Some. left; eauto.
  - split; intros; left; eauto.
  - destruct (getSale_cases k0 s) as [E|[[_ E]|(r0&_&E)]]; rewrite E;
      split; intros; left; eauto.
  - destruct (createSale_cases b s) as [(c&p&q&Hv&_&_&_&_&E)|(_&Hsame&_)].
    + simpl in E. rewrite E. simpl. split; [intros; left; eauto|].
      intros k x [[<- <-]|[_ Hk]]%lookup_insert_Some; [right|left; eauto].
      apply sale_values_inv in Hv as (Hc & Hp & Hq). simpl.
      split_and!; by eapply nullable_int4_within.
    + destruct Hsame as (_&Hp&_&_&_&Hs). rewrite Hp, Hs.
      split; intros; left; eauto.
  - destruct (updateSale_cases k0 b s)
      as [E|[[_ E]|(old&c&p&q&Hk0&Hv&_&_&E)]];
      rewrite E; simpl; [split; intros; left; eauto..|].
    split; [intros; left; eauto|].
    intros k x [[<- <-]|[_ Hk]]%lookup_insert_Some; [right|left; eauto].
    apply sale_values_inv in Hv as (Hc & Hp & Hq). simpl.
    split_and!; by eapply nullable_int4_within.
  - destruct (deleteSale_cases k0 s) as [E|[E|E]];
      rewrite E; simpl; [split; intros; left; eauto..|].
    split; [intros; left; eauto|].
    intros k x [_ Hk]%lookup_delete_Some. left; eauto.
Qed.

Lemma handle_columns_typed r s : columns_typed s → columns_typed (handle r s).2.
Proof.
  intros [Hp Hs]. destruct (handle_rows_typed r s) as [Hkp Hks].
  split.
  - intros k p Hk. destruct (Hkp k p Hk) as [(p0&Hk0&->)|?]; [|done].
    by apply (Hp k).
  - intros k x Hk. destruct (Hks k x Hk) as [(x0&Hk0&->)|?]; [|done].
    by apply (Hs k).
Qed.

Lemma empty_store_columns_typed : columns_typed empty_store.
Proof. split; apply map_Forall_empty. Qed.

(** X8.  What the handlers store fits the declared column types: if every
    product name has at most 100 characters and every category at most 50,
    every price has at most eight digits before the point, and the three
    integer columns of every sale are within 32 bits (as in the freshly
    created database), the same holds after every run of requests.  An
    over-long name or an oversized number is never stored. *)
Theorem columns_typed_along_runs (rs : list Request) (s : Store) :
  columns_typed s → columns_typed (run rs s).2.
Proof.
  revert s. induction rs as [|r rs IH]; intros s Hinv; [done|].
  rewrite run_cons. simpl. by apply IH, handle_columns_typed.
Qed.

Lemma columns_typed_along_runs_witness :
  columns_typed empty_store ∧
  columns_typed
    (run [PostProduct (product_body (Some "Laptop")
                         (Some {| mant := 19999; scale := 3 |})
                         (Some euros30) None);
          PostSale {| b_customer_id := None; b_product_id := Some (js_int 1);
                      b_quantity := Some (js_int 3000000000) |};
          PutProduct 1 (laptop_body (js_int 100000000) None)] empty_store).2 ∧
  products
    (run [PostProduct (product_body (Some "Laptop")
                         (Some {| mant := 19999; scale := 3 |})
                         (Some euros30) None);
          PostSale {| b_customer_id := None; b_product_id := Some (js_int 1);
                      b_quantity := Some (js_int 3000000000) |};
          PutProduct 1 (laptop_body (js_int 100000000) None)] empty_store).2
    !! 1 = Some {| product_name := Some "Laptop"%string; price := Some 2000;
                   category := Some euros30; description := None;
                   stock_quantity := None |}.
Proof.
  split_and!; [exact empty_store_columns_typed| |reflexivity].
  apply columns_typed_along_runs. exact empty_store_columns_typed.
Defined.

(** ** Binding numbers *)

Lemma round_half_away_opp num den :
  round_half_away (- num) den = - round_half_away num den.
Proof.
  unfold round_half_away. rewrite Z.sgn_opp, Z.abs_opp. lia.
Qed.

Lemma round_half_away_nearest num den :
  0 < den →
  2 * Z.abs (round_half_away num den * den - num) ≤ den ∧
  (2 * Z.abs (round_half_away num den * den - num) = den →
   Z.abs num < Z.abs (round_half_away num den * den)).
Proof.
  intros Hden. unfold round_half_away.
  pose proof (Z.div_mod (2 * Z.abs num + den) (2 * den) ltac:(lia)) as Hdm.
  pose proof (Z.mod_pos_bound (2 * Z.abs num + den) (2 * den) ltac:(lia)) as Hr.
  set (q := (2 * Z.abs num + den) / (2 * den)) in *.
  set (r := (2 * Z.abs num + den) mod (2 * den)) in *.
  assert (Hq : 0 ≤ q) by (apply Z.div_pos; lia).
  destruct num as [|p|p]; simpl Z.sgn; simpl Z.abs in *.
  - assert (q = 0) as -> by nia. lia.
  - split; nia.
  - split; nia.
Qed.

(** X9.  A price is stored rounded to the nearest hundredth, ties away from
    zero, symmetrically for negative prices: the stored value is within half
    a hundredth of the number sent, strictly farther from zero than it on a
    tie, and has at most eight digits before the point. *)
Theorem price_stored_to_nearest_hundredth (n : JsNumber) (c : Z) :
  numeric_10_2 n = Ok c →
  2 * Z.abs (c * pow10 (scale n) - mant n * 100) ≤ pow10 (scale n) ∧
  (2 * Z.abs (c * pow10 (scale n) - mant n * 100) = pow10 (scale n) →
   Z.abs (mant n * 100) < Z.abs (c * pow10 (scale n))) ∧
  Z.abs c < 10 ^ 10 ∧
  numeric_10_2 {| mant := - mant n; scale := scale n |} = Ok (- c).
Proof.
  unfold numeric_10_2. simpl.
  destruct (Z.ltb_spec (Z.abs (round_half_away (mant n * 100) (pow10 (scale n))))
                       (10 ^ 10)) as [Hlt|]; [|done].
  intros [= <-].
  destruct (round_half_away_nearest (mant n * 100) (pow10 (scale n))
              (pow10_pos _)) as [H1 H2].
  split_and!; [done..|].
  replace (- mant n * 100) with (- (mant n * 100)) by lia.
  rewrite round_half_away_opp, Z.abs_opp.
  destruct (Z.ltb_spec (Z.abs (round_half_away (mant n * 100) (pow10 (scale n))))
                       (10 ^ 10)); [done|lia].
Qed.

Lemma price_stored_to_nearest_hundredth_witness :
  numeric_10_2 {| mant := 5; scale := 3 |} = Ok 1 ∧
  numeric_10_2 {| mant := -5; scale := 3 |} = Ok (-1) ∧
  2 * Z.abs (1 * pow10 3 - 5 * 100) ≤ pow10 3.
Proof.
  assert (H : numeric_10_2 {| mant := 5; scale := 3 |} = Ok 1) by reflexivity.
  destruct (price_stored_to_nearest_hundredth _ _ H) as (H1 & _ & _ & H4).
  split_and!; [exact H|exact H4|exact H1].
Defined.

Lemma int4_of_number_iff n k :
  int4_of_number n = Ok k ↔ mant n = k * pow10 (scale n) ∧ in_int4 k = true.
Proof.
  pose proof (pow10_pos (scale n)) as Hd.
  unfold int4_of_number, is_integer, int4. split.
  - destruct (Z.eqb_spec (mant n mod pow10 (scale n)) 0) as [Hm|]; [|done].
    destruct (in_int4 (mant n / pow10 (scale n))) eqn:Hr; [|done].
    intros [= <-]. split; [|done].
    rewrite Z.mul_comm. apply Z.div_exact; [lia|done].
  - intros [Hv Hr]. rewrite Hv, Z.mod_mul, Z.div_mul by lia. simpl.
    by rewrite Hr.
Qed.

(** X10.  A field of a sale binds to its INTEGER column exactly when the
    number sent is an integer within 32 bits, and then to that integer.  A
    [createSale] or [updateSale] carrying a fractional or out-of-range
    [customer_id], [product_id] or [quantity] is answered 500 and leaves the
    whole store, sequences included, as it was. *)
Theorem sale_fields_bind_as_int4 (b : SaleBody) (s : Store) :
  (∀ n k, int4_of_number n = Ok k ↔
          mant n = k * pow10 (scale n) ∧ in_int4 k = true) ∧
  (∀ n,
     b_customer_id b = Some n ∨ b_product_id b = Some n ∨ b_quantity b = Some n →
     (∀ k, in_int4 k = true → mant n ≠ k * pow10 (scale n)) →
     createSale b s = (internal_server_error, s) ∧
     ∀ id, updateSale id b s = (internal_server_error, s)).
Proof.
  split; [apply int4_of_number_iff|].
  intros n Hfield Hbad.
  assert (Hn : ∀ k, int4_of_number n ≠ Ok k).
  { intros k [Hv Hr]%int4_of_number_iff. by apply (Hbad k). }
  assert (Hv : ∀ v, sale_values (b_customer_id b) (b_product_id b) (b_quantity b)
                    ≠ Ok v).
  { intros [[c p] q] (Hc & Hp & Hq)%sale_values_inv.
    destruct Hfield as [E|[E|E]]; rewrite E in *.
    - apply nullable_Some_inv in Hc as (k & _ & Hk). by apply (Hn k).
    - apply nullable_Some_inv in Hp as (k & _ & Hk). by apply (Hn k).
    - apply nullable_Some_inv in Hq as (k & _ & Hk). by apply (Hn k). }
  split.
  - unfold createSale, insert_sale.
    destruct (sale_values _ _ _) as [v|e] eqn:E; [by destruct (Hv v)|done].
  - intros id. apply updateSale_rejected. intros [[v E] _]. by apply (Hv v).
Qed.

Lemma sale_fields_bind_as_int4_witness :
  createSale {| b_customer_id := Some (js_int 1); b_product_id := Some (js_int 1);
                b_quantity := Some {| mant := 25; scale := 1 |} |} (shop 10)
  = (internal_server_error, shop 10).
Proof.
  apply (proj2 (sale_fields_bind_as_int4 _ (shop 10)) {| mant := 25; scale := 1 |}).
  - right; right; reflexivity.
  - intros k _. simpl. unfold pow10. simpl. lia.
Defined.

(** ** Values the product columns refuse *)

Lemma varchar_too_long n v :
  (n < char_length (list_ascii_of_string v))%nat →
  forallb is_space (drop_chars n (list_ascii_of_string v)) = false →
  ∀ v', varchar n v ≠ Ok v'.
Proof.
  intros Hlen Hsp v'. unfold varchar.
  destruct (existsb is_nul (list_ascii_of_string v)); [done|].
  destruct (Nat.leb_spec (char_length (list_ascii_of_string v)) n); [lia|].
  by rewrite Hsp.
Qed.

(** X11.  A product whose name has a non-space character beyond the 100th, or
    whose category has one beyond the 50th, or whose price rounds to nine or
    more digits before the point, is refused by [createProduct] and by
    [updateProduct]: the answer is 500 and the whole store, sequences
    included, is as it was. *)
Theorem product_values_out_of_bounds_refused (b : ProductBody) (s : Store) :
  (∃ v, b_product_name b = Some v ∧
        (100 < char_length (list_ascii_of_string v))%nat ∧
        forallb is_space (drop_chars 100 (list_ascii_of_string v)) = false) ∨
  (∃ v, b_category b = Some v ∧
        (50 < char_length (list_ascii_of_string v))%nat ∧
        forallb is_space (drop_chars 50 (list_ascii_of_string v)) = false) ∨
  (∃ n, b_price b = Some n ∧
        10 ^ 10 ≤ Z.abs (round_half_away (mant n * 100) (pow10 (scale n)))) →
  createProduct b s = (internal_server_error, s) ∧
  ∀ id, updateProduct id b s = (internal_server_error, s).
Proof.
  intros Hbad.
  assert (Hv : ∀ v, product_values (b_product_name b) (b_price b) (b_category b)
                    ≠ Ok v).
  { intros [[n p] c] (Hn & Hp & Hc)%product_values_inv.
    destruct Hbad as [(v&E&Hl&Hs)|[(v&E&Hl&Hs)|(m&E&Hm)]]; rewrite E in *.
    - apply nullable_Some_inv in Hn as (v' & _ & Hv').
      by apply (varchar_too_long 100 v Hl Hs v').
    - apply nullable_Some_inv in Hc as (v' & _ & Hv').
      by apply (varchar_too_long 50 v Hl Hs v').
    - apply nullable_Some_inv in Hp as (c' & _ & Hc').
      unfold numeric_10_2 in Hc'.
      destruct (Z.ltb_spec (Z.abs (round_half_away (mant m * 100) (pow10 (scale m))))
                           (10 ^ 10)); [lia|done]. }
  split.
  - unfold createProduct, insert_product.
    destruct (product_values _ _ _) as [v|e] eqn:E; [by destruct (Hv v)|done].
  - intros id. apply updateProduct_rejected. intros [[v E] _]. by apply (Hv v).
Qed.

Lemma product_values_out_of_bounds_refused_witness :
  10 ^ 10 ≤ Z.abs (round_half_away (mant (js_int 100000000) * 100)
                                   (pow10 (scale (js_int 100000000)))) ∧
  createProduct (laptop_body (js_int 100000000) None) (shop 10)
    = (internal_server_error, shop 10) ∧
  (50 < char_length (list_ascii_of_string (replicate_string 51 "€")))%nat ∧
  createProduct
    (product_body (Some "Laptop") None (Some (replicate_string 51 "€")) None)
    (shop 10) = (internal_server_error, shop 10).
Proof.
  assert (H : 10 ^ 10 ≤ Z.abs (round_half_away (mant (js_int 100000000) * 100)
                                 (pow10 (scale (js_int 100000000)))))
    by (vm_compute; discriminate).
  assert (H51 : (50 < char_length
                        (list_ascii_of_string (replicate_string 51 "€")))%nat)
    by (vm_compute; lia).
  split_and!; [exact H| |exact H51|].
  - apply (product_values_out_of_bounds_refused
             (laptop_body (js_int 100000000) None) (shop 10)).
    right; right. exists (js_int 100000000). split; [reflexivity|exact H].
  - apply (product_values_out_of_bounds_refused
             (product_body (Some "Laptop") None (Some (replicate_string 51 "€")) None)
             (shop 10)).
    right; left. exists (replicate_string 51 "€").
    split_and!; [reflexivity|exact H51|reflexivity].
Defined.

(** ** Updating twice *)

Lemma set_products_insert_twice k row s :
  set_products (insert k row) (set_products (insert k row) s)
  = set_products (insert k row) s.
Proof. unfold set_products. simpl. f_equal. apply insert_insert_eq. Qed.

Lemma set_sales_insert_twice k row s :
  set_sales (insert k row) (set_sales (insert k row) s)
  = set_sales (insert k row) s.
Proof. unfold set_sales. simpl. f_equal. apply insert_insert_eq. Qed.

(** X12.  PUT is idempotent: sending the same [updateProduct], or the same
    [updateSale], a second time gives the same answer as the first and leaves
    the store the first one left. *)
Theorem updates_are_idempotent (id : Z) (pb : ProductBody) (sb : SaleBody) (s : Store) :
  updateProduct id pb (updateProduct id pb s).2 = updateProduct id pb s ∧
  updateSale id sb (updateSale id sb s).2 = updateSale id sb s.
Proof.
  split.
  - destruct (updateProduct_cases id pb s) as [E|[[_ E]|(old&n&p&c&Hk&Hv&E)]];
      [by rewrite E; simpl; rewrite E..|].
    destruct (product_update_binds_dec id pb) as [[_ Hid]|Hb];
      [|by rewrite updateProduct_rejected in E].
    simpl in E. rewrite E. simpl.
    match goal with
    | |- updateProduct _ _ (set_products (insert _ ?row) _) = _ =>
        pose proof (updateProduct_found id pb (set_products (insert id row) s)
                      row n p c Hv Hid (lookup_insert_eq _ _ _)) as E2
    end.
    simpl in E2. rewrite E2. by rewrite set_products_insert_twice.
  - destruct (updateSale_cases id sb s)
      as [E|[[_ E]|(old&c&p&q&Hk&Hv&Hc&Hp&E)]];
      [by rewrite E; simpl; rewrite E..|].
    destruct (sale_update_binds_dec id sb) as [[_ Hid]|Hb];
      [|by rewrite updateSale_rejected in E].
    simpl in E. rewrite E. simpl.
    match goal with
    | |- updateSale _ _ (set_sales (insert _ ?row) _) = _ =>
        pose proof (updateSale_found id sb (set_sales (insert id row) s)
                      row c p q Hv Hid (lookup_insert_eq _ _ _)) as E2
    end.
    simpl in E2. unfold fk_holds_upd in E2.
    rewrite !bool_decide_eq_true_2 in E2 by done. simpl in E2.
    rewrite E2. by rewrite set_sales_insert_twice.
Qed.

(** ** Deleting *)

Lemma getSale_absent id s :
  in_int4 id = true → sales s !! id = None →
  getSale id s = (json 404 (error_json "Sale not found"), s).
Proof.
  intros Hid Hk. unfold getSale, select_sale, row_of.
  rewrite int4_Ok by done. simpl. by rewrite Hk.
Qed.

Lemma getProduct_absent id s :
  in_int4 id = true → products s !! id = None →
  getProduct id s = (json 404 (error_json "Product not found"), s).
Proof.
  intros Hid Hk. unfold getProduct, select_product, row_of.
  rewrite int4_Ok by done. simpl. by rewrite Hk.
Qed.

Lemma deleteSale_absent id s :
  in_int4 id = true → sales s !! id = None →
  deleteSale id s = (json 404 (error_json "Sale not found"), s).
Proof.
  intros Hid Hk. unfold deleteSale, delete_sale.
  rewrite int4_Ok by done. by rewrite Hk.
Qed.

Lemma deleteSale_present id s :
  in_int4 id = true → is_Some (sales s !! id) →
  deleteSale id s = (sendStatus 204, set_sales (delete id) s).
Proof.
  intros Hid [x Hk]. unfold deleteSale, delete_sale.
  rewrite int4_Ok by done. by rewrite Hk.
Qed.

Lemma size_delete_present {R} (t : gmap Z R) k :
  is_Some (t !! k) → S (size (delete k t)) = size t.
Proof.
  intros [x Hx].
  rewrite <- (map_size_insert_None k x (delete k t)) by apply lookup_delete_eq.
  by rewrite insert_delete_id.
Qed.

Lemma deleteSale_out_of_range id s :
  in_int4 id = false → deleteSale id s = (internal_server_error, s).
Proof. intros H. unfold deleteSale, delete_sale. by rewrite int4_Err. Qed.

(** X13.  [deleteSale] on an id outside the 32-bit range of the key answers
    500, and on an id within it that matches no row 404; neither changes
    anything.  On a stored sale it answers 204 and removes that row only:
    every other sale and the whole products table, stock included, are as
    before (nothing is restocked), there is one sale fewer, and from then on
    [getSale] and a second [deleteSale] on the id answer 404. *)
Theorem deleteSale_removes_one_row (id : Z) (s : Store) :
  (in_int4 id = false → deleteSale id s = (internal_server_error, s)) ∧
  (in_int4 id = true → sales s !! id = None →
   deleteSale id s = (json 404 (error_json "Sale not found"), s)) ∧
  (in_int4 id = true → is_Some (sales s !! id) →
   let s' := (deleteSale id s).2 in
   (deleteSale id s).1 = sendStatus 204 ∧
   sales s' = delete id (sales s) ∧
   (∀ k, k ≠ id → sales s' !! k = sales s !! k) ∧
   products s' = products s ∧
   S (size (sales s')) = size (sales s) ∧
   getSale id s' = (json 404 (error_json "Sale not found"), s') ∧
   deleteSale id s' = (json 404 (error_json "Sale not found"), s')).
Proof.
  split_and!; [apply deleteSale_out_of_range|apply deleteSale_absent|].
  intros Hid Hsome. rewrite (deleteSale_present id s Hid Hsome). simpl.
  split_and!; try done.
  - intros k Hk. by rewrite lookup_delete_ne.
  - by apply size_delete_present.
  - apply getSale_absent; [done|]. simpl. apply lookup_delete_eq.
  - apply deleteSale_absent; [done|]. simpl. apply lookup_delete_eq.
Qed.

Lemma deleteSale_removes_one_row_witness :
  in_int4 1 = true ∧ is_Some (sales shop_after_sale !! 1) ∧
  (deleteSale 1 shop_after_sale).1 = sendStatus 204 ∧
  products (deleteSale 1 shop_after_sale).2 = products shop_after_sale ∧
  in_int4 (-2147483649) = false ∧
  deleteSale (-2147483649) shop_after_sale
    = (internal_server_error, shop_after_sale).
Proof.
  assert (Hs : is_Some (sales shop_after_sale !! 1)) by (by eexists).
  destruct (proj2 (proj2 (deleteSale_removes_one_row 1 shop_after_sale))
              eq_refl Hs) as (H1 & _ & _ & H4 & _).
  split_and!; [reflexivity|exact Hs|exact H1|exact H4|reflexivity|].
  exact (proj1 (deleteSale_removes_one_row (-2147483649) shop_after_sale) eq_refl).
Defined.

(** X14.  After [deleteProduct] has answered 204 the product is gone and only
    it: [getProduct] and a second [deleteProduct] on the id answer 404, every
    other product and every sale are as before, and there is one product
    fewer. *)
Theorem deleteProduct_removes_one_row (id : Z) (s s' : Store) :
  deleteProduct id s = (sendStatus 204, s') →
  is_Some (products s !! id) ∧
  products s' = delete id (products s) ∧
  (∀ k, k ≠ id → products s' !! k = products s !! k) ∧
  sales s' = sales s ∧
  S (size (products s')) = size (products s) ∧
  getProduct id s' = (json 404 (error_json "Product not found"), s') ∧
  deleteProduct id s' = (json 404 (error_json "Product not found"), s').
Proof.
  intros Hd.
  destruct (in_int4 id) eqn:Hid;
    [|by rewrite deleteProduct_out_of_range in Hd].
  destruct (deleteProduct_cases id s) as [E|[[_ E]|(Hsome&_&E)]];
    rewrite E in Hd; simplify_eq.
  simpl. split_and!; try done.
  - intros k Hk. by rewrite lookup_delete_ne.
  - by apply size_delete_present.
  - apply getProduct_absent; [done|]. simpl. apply lookup_delete_eq.
  - apply deleteProduct_not_found; [done|]. simpl. apply lookup_delete_eq.
Qed.

Lemma deleteProduct_removes_one_row_witness :
  deleteProduct 1 (shop 10) = (sendStatus 204, set_products (delete 1) (shop 10)) ∧
  getProduct 1 (set_products (delete 1) (shop 10))
    = (json 404 (error_json "Product not found"),
       set_products (delete 1) (shop 10)).
Proof.
  assert (H : deleteProduct 1 (shop 10)
              = (sendStatus 204, set_products (delete 1) (shop 10)))
    by reflexivity.
  split; [exact H|].
  exact (proj1 (proj2 (proj2 (proj2 (proj2 (proj2
           (deleteProduct_removes_one_row 1 (shop 10) _ H))))))).
Defined.

(** X15.  A product still named by an order or by an order item cannot be
    deleted either: the references of [orders] and [order_items] to
    [products] refuse the statement, the answer is 500 and the store is
    unchanged. *)
Theorem deleteProduct_refused_while_ordered (id : Z) (s : Store) :
  is_Some (products s !! id) →
  (∃ k o, orders s !! k = Some o ∧ order_product_id o = Some id) ∨
  (∃ k i, order_items s !! k = Some i ∧ item_product_id i = Some id) →
  deleteProduct id s = (internal_server_error, s).
Proof.
  intros Hsome Href.
  destruct (in_int4 id) eqn:Hid; [|by apply deleteProduct_out_of_range].
  apply deleteProduct_referenced; [done..|].
  unfold product_referenced.
  destruct Href as [(k&o&Hk&Ho)|(k&i&Hk&Hi)].
  - by rewrite (referenced_true order_product_id id (orders s) k o Hk Ho).
  - rewrite (referenced_true item_product_id id (order_items s) k i Hk Hi).
    by rewrite orb_true_r.
Qed.

Lemma deleteProduct_refused_while_ordered_witness :
  is_Some (products shop_with_order !! 1) ∧
  orders shop_with_order !! 1 = Some (order_of 1) ∧
  deleteProduct 1 shop_with_order = (internal_server_error, shop_with_order).
Proof.
  assert (Hp : is_Some (products shop_with_order !! 1)) by (by eexists).
  assert (Ho : orders shop_with_order !! 1 = Some (order_of 1)) by reflexivity.
  split_and!; [exact Hp|exact Ho|].
  apply deleteProduct_refused_while_ordered; [exact Hp|].
  left. exists 1, (order_of 1). split; [exact Ho|reflexivity].
Defined.

(** ** Round trip of a sale *)

Lemma getSale_present id s x :
  in_int4 id = true → sales s !! id = Some x →
  getSale id s = (json 200 (sale_json (id, x)), s).
Proof.
  intros Hid Hk. unfold getSale, select_sale, row_of.
  rewrite int4_Ok by done. simpl. by rewrite Hk.
Qed.

Lemma nullable_int4_exact v r :
  nullable int4_of_number v = Ok r →
  match v, r with
  | Some n, Some k => mant n = k * pow10 (scale n)
  | None, None => True
  | _, _ => False
  end.
Proof.
  destruct v as [n|]; simpl.
  - destruct (int4_of_number n) as [k|] eqn:Hk; simpl; [|done].
    intros [= <-]. by apply int4_of_number_iff in Hk as [? _].
  - by intros [= <-].
Qed.

(** X16.  After a successful [createSale], [getSale] on the assigned identity
    returns the row created, and that row holds exactly the integers sent for
    [customer_id], [product_id] and [quantity], NULL for a field that was
    absent; [listSales] shows it. *)
Theorem sale_round_trip (b : SaleBody) (s : Store) (id : Z) (row : SaleRow) (s' : Store) :
  1 ≤ sales_sale_id_seq s →
  createSale b s = (json 201 (sale_json (id, row)), s') →
  getSale id s' = (json 200 (sale_json (id, row)), s') ∧
  (∃ rows, listSales s' = (json 200 (sales_json rows), s') ∧ (id, row) ∈ rows) ∧
  match b_customer_id b, customer_id row with
  | Some n, Some k => mant n = k * pow10 (scale n)
  | None, None => True
  | _, _ => False
  end ∧
  match b_product_id b, product_id row with
  | Some n, Some k => mant n = k * pow10 (scale n)
  | None, None => True
  | _, _ => False
  end ∧
  match b_quantity b, quantity row with
  | Some n, Some k => mant n = k * pow10 (scale n)
  | None, None => True
  | _, _ => False
  end.
Proof.
  intros Hseq Hc.
  destruct (createSale_cases b s) as [(c&p&q&Hv&Hle&_&_&_&E)|(E&_&_)];
    [|by rewrite Hc in E].
  simpl in E. rewrite E in Hc. simplify_eq.
  apply sale_values_inv in Hv as (Hbc & Hbp & Hbq).
  assert (Hl : sales (sale_inserted (sales_sale_id_seq s)
                 {| customer_id := c; product_id := p; quantity := q;
                    timestamp := None |} s) !! sales_sale_id_seq s
               = Some {| customer_id := c; product_id := p; quantity := q;
                         timestamp := None |}) by apply lookup_insert_eq.
  split_and!.
  - apply getSale_present; [|done].
    unfold in_int4, int4_min. apply andb_true_intro. split; lia.
  - eexists. split; [reflexivity|]. by apply elem_of_map_to_list.
  - by apply nullable_int4_exact in Hbc.
  - by apply nullable_int4_exact in Hbp.
  - by apply nullable_int4_exact in Hbq.
Qed.

Lemma sale_round_trip_witness :
  1 ≤ sales_sale_id_seq (shop 10) ∧
  getSale 1 shop_after_sale
    = (json 200 (sale_json (1, {| customer_id := Some 1; product_id := Some 1;
                                  quantity := Some 6; timestamp := None |})),
       shop_after_sale).
Proof.
  assert (Hseq : 1 ≤ sales_sale_id_seq (shop 10)) by done.
  split; [exact Hseq|].
  exact (proj1 (sale_round_trip (sale_body 1 1 6) (shop 10) 1 _ shop_after_sale
                  Hseq eq_refl)).
Defined.

(** X17.  A successful [updateSale] replaces [customer_id], [product_id] and
    [quantity] of the addressed sale by the integers sent and nothing else:
    the identity and the timestamp of the row, every other sale and the whole
    products table (no stock is adjusted) are as before, and [getSale] then
    returns the new row. *)
Theorem updateSale_replaces_three_columns
    (id id' : Z) (b : SaleBody) (s s' : Store) (row : SaleRow) :
  updateSale id b s = (json 200 (sale_json (id', row)), s') →
  id' = id ∧
  (∃ old, sales s !! id = Some old ∧ timestamp row = timestamp old) ∧
  sale_values (b_customer_id b) (b_product_id b) (b_quantity b)
    = Ok (customer_id row, product_id row, quantity row) ∧
  sales s' = <[id:=row]> (sales s) ∧
  (∀ k, k ≠ id → sales s' !! k = sales s !! k) ∧
  products s' = products s ∧
  getSale id s' = (json 200 (sale_json (id, row)), s').
Proof.
  intros Hu.
  destruct (sale_update_binds_dec id b) as [[_ Hid]|Hb];
    [|by rewrite updateSale_rejected in Hu].
  destruct (updateSale_cases id b s)
    as [E|[[_ E]|(old&c&p&q&Hk&Hv&_&_&E)]]; rewrite E in Hu; try done.
  simpl in Hu. simplify_eq. simpl.
  split_and!; try done.
  - by exists old.
  - intros k Hne. by rewrite lookup_insert_ne.
  - apply getSale_present; [done|]. simpl. apply lookup_insert_eq.
Qed.

Lemma updateSale_replaces_three_columns_witness :
  updateSale 1 (sale_body 1 1 9) shop_after_sale
    = (json 200 (sale_json (1, {| customer_id := Some 1; product_id := Some 1;
                                  quantity := Some 9; timestamp := None |})),
       (updateSale 1 (sale_body 1 1 9) shop_after_sale).2) ∧
  products (updateSale 1 (sale_body 1 1 9) shop_after_sale).2
    = products shop_after_sale.
Proof.
  assert (H : updateSale 1 (sale_body 1 1 9) shop_after_sale
    = (json 200 (sale_json (1, {| customer_id := Some 1; product_id := Some 1;
                                  quantity := Some 9; timestamp := None |})),
       (updateSale 1 (sale_body 1 1 9) shop_after_sale).2)) by reflexivity.
  split; [exact H|].
  destruct (updateSale_replaces_three_columns _ _ _ _ _ _ H)
    as (_ & _ & _ & _ & _ & Hp & _).
  exact Hp.
Defined.

(** X18.  [updateSale] cannot make a sale point at a customer or a product
    that is not stored: in a store whose references hold, an update of a
    stored sale naming a missing product or a missing customer is refused
    with 500 and the store is unchanged. *)
Theorem updateSale_dangling_reference_refused
    (id : Z) (b : SaleBody) (s : Store) (n : JsNumber) (k : Z) :
  foreign_keys_hold s → is_Some (sales s !! id) →
  int4_of_number n = Ok k →
  (b_product_id b = Some n ∧ products s !! k = None) ∨
  (b_customer_id b = Some n ∧ customers s !! k = None) →
  updateSale id b s = (internal_server_error, s).
Proof.
  intros (_ & _ & _ & Hfk) [old Hold] Hn Hmiss.
  destruct (updateSale_cases id b s)
    as [E|[[Hnone _]|(old'&c&p&q&Hk&Hv&Hc&Hp&E)]]; [done|congruence|].
  simplify_eq. exfalso.
  destruct (Hfk id old Hold) as [Hoc Hop].
  apply sale_values_inv in Hv as (Hbc & Hbp & _).
  destruct Hmiss as [[Eb Hm]|[Eb Hm]]; rewrite Eb in *.
  - apply nullable_Some_inv in Hbp as (k' & -> & Hk').
    assert (k' = k) as -> by congruence.
    unfold fk_holds_upd in Hp.
    apply orb_prop in Hp as [Heq%bool_decide_eq_true|Hp].
    + rewrite Heq in Hop. apply fk_holds_Some in Hop.
      rewrite Hm in Hop. by destruct Hop.
    + apply fk_holds_Some in Hp. rewrite Hm in Hp. by destruct Hp.
  - apply nullable_Some_inv in Hbc as (k' & -> & Hk').
    assert (k' = k) as -> by congruence.
    unfold fk_holds_upd in Hc.
    apply orb_prop in Hc as [Heq%bool_decide_eq_true|Hc].
    + rewrite Heq in Hoc. apply fk_holds_Some in Hoc.
      rewrite Hm in Hoc. by destruct Hoc.
    + apply fk_holds_Some in Hc. rewrite Hm in Hc. by destruct Hc.
Qed.

Lemma shop_foreign_keys stock : foreign_keys_hold (shop stock).
Proof. unfold foreign_keys_hold. simpl. split_and!; apply map_Forall_empty. Qed.

Lemma updateSale_dangling_reference_refused_witness :
  foreign_keys_hold shop_after_sale ∧ is_Some (sales shop_after_sale !! 1) ∧
  int4_of_number (js_int 99) = Ok 99 ∧ products shop_after_sale !! 99 = None ∧
  updateSale 1 (sale_body 1 99 6) shop_after_sale
    = (internal_server_error, shop_after_sale).
Proof.
  assert (Hfk : foreign_keys_hold shop_after_sale).
  { apply (handle_foreign_keys (PostSale (sale_body 1 1 6)) (shop 10)),
      shop_foreign_keys. }
  assert (Hs : is_Some (sales shop_after_sale !! 1)) by (by eexists).
  assert (Hn : int4_of_number (js_int 99) = Ok 99) by reflexivity.
  assert (Hm : products shop_after_sale !! 99 = None) by reflexivity.
  split_and!; [exact Hfk|exact Hs|exact Hn|exact Hm|].
  apply (updateSale_dangling_reference_refused 1 (sale_body 1 99 6)
           shop_after_sale (js_int 99) 99 Hfk Hs Hn).
  left. split; [reflexivity|exact Hm].
Defined.

(** ** Listing after a write *)

(** X19.  The listings follow the writes: after a successful [createProduct]
    or [createSale] the listing is the former listing plus the created row,
    and after a successful [deleteProduct] or [deleteSale] it is the former
    listing minus the deleted row (listings are compared up to order). *)
Theorem listings_follow_writes (s s' : Store) :
  (∀ b id row,
     createProduct b s = (json 201 (product_json (id, row)), s') →
     map_to_list (products s') ≡ₚ (id, row) :: map_to_list (products s)) ∧
  (∀ b id row,
     createSale b s = (json 201 (sale_json (id, row)), s') →
     map_to_list (sales s') ≡ₚ (id, row) :: map_to_list (sales s)) ∧
  (∀ id,
     deleteProduct id s = (sendStatus 204, s') →
     ∃ old, products s !! id = Some old ∧
            (id, old) :: map_to_list (products s') ≡ₚ map_to_list (products s)) ∧
  (∀ id,
     deleteSale id s = (sendStatus 204, s') →
     ∃ old, sales s !! id = Some old ∧
            (id, old) :: map_to_list (sales s') ≡ₚ map_to_list (sales s)).
Proof.
  split_and!.
  - intros b id row Hc.
    destruct (createProduct_cases b s) as [(n&p&c&_&_&Hfree&E)|(E&_&_)];
      [|by rewrite Hc in E].
    simpl in E. rewrite E in Hc. simplify_eq. simpl.
    by apply map_to_list_insert.
  - intros b id row Hc.
    destruct (createSale_cases b s) as [(c&p&q&_&_&Hfree&_&_&E)|(E&_&_)];
      [|by rewrite Hc in E].
    simpl in E. rewrite E in Hc. simplify_eq. simpl.
    by apply map_to_list_insert.
  - intros id Hd.
    destruct (deleteProduct_cases id s) as [E|[[_ E]|([old Hold]&_&E)]];
      rewrite E in Hd; simplify_eq.
    exists old. split; [done|]. simpl. by apply map_to_list_delete.
  - intros id Hd.
    destruct (sales s !! id) as [old|] eqn:Hold.
    + destruct (deleteSale_cases id s) as [E|[E|E]];
        rewrite E in Hd; simplify_eq.
      exists old. split; [done|]. simpl. by apply map_to_list_delete.
    + destruct (deleteSale_cases id s) as [E|[E|E]];
        rewrite E in Hd; simplify_eq.
      unfold deleteSale, delete_sale, int4 in E.
      repeat case_match; simplify_eq.
Qed.

Lemma listings_follow_writes_witness :
  createSale (sale_body 1 1 6) (shop 10)
    = (json 201 (sale_json (1, {| customer_id := Some 1; product_id := Some 1;
                                  quantity := Some 6; timestamp := None |})),
       shop_after_sale) ∧
  map_to_list (sales shop_after_sale)
    ≡ₚ (1, {| customer_id := Some 1; product_id := Some 1;
              quantity := Some 6; timestamp := None |})
       :: map_to_list (sales (shop 10)).
Proof.
  assert (H : createSale (sale_body 1 1 6) (shop 10)
    = (json 201 (sale_json (1, {| customer_id := Some 1; product_id := Some 1;
                                  quantity := Some 6; timestamp := None |})),
       shop_after_sale)) by reflexivity.
  split; [exact H|].
  exact (proj1 (proj2 (listings_follow_writes (shop 10) shop_after_sale)) _ _ _ H).
Defined.

(** ** References left out *)

(** X20.  A sale may leave out its customer and its product: absent
    [customer_id] and [product_id] are stored as NULL, which no foreign key
    refuses, so the sale is created (201) whatever customers and products are
    stored, as long as the quantity binds and an identity is available. *)
Theorem createSale_without_references (b : SaleBody) (s : Store) (q : option Z) :
  b_customer_id b = None → b_product_id b = None →
  nullable int4_of_number (b_quantity b) = Ok q →
  sales_sale_id_seq s ≤ int4_max → sales s !! sales_sale_id_seq s = None →
  let id := sales_sale_id_seq s in
  let row := {| customer_id := None; product_id := None; quantity := q;
                timestamp := None |} in
  createSale b s = (json 201 (sale_json (id, row)), sale_inserted id row s).
Proof.
  intros Hc Hp Hq Hle Hfree id row.
  unfold createSale, insert_sale, sale_values, nextval_sales.
  rewrite Hc, Hp, Hq. simpl.
  destruct (Z.leb_spec (sales_sale_id_seq s) int4_max); [|lia]. simpl.
  by rewrite Hfree.
Qed.

Lemma createSale_without_references_witness :
  createSale {| b_customer_id := None; b_product_id := None; b_quantity := None |}
             empty_store
  = (json 201 (sale_json (1, {| customer_id := None; product_id := None;
                                quantity := None; timestamp := None |})),
     sale_inserted 1 {| customer_id := None; product_id := None;
                        quantity := None; timestamp := None |} empty_store).
Proof.
  apply (createSale_without_references
           {| b_customer_id := None; b_product_id := None; b_quantity := None |}
           empty_store None);
    first [reflexivity | by vm_compute].
Defined.
